(** * miro.data.item: the read-only row view [ItemInfo]

    A shallow embedding of [tv/lib/data/item.py]: the column registry
    ([SelectColumn], [_column_info]), the row type [ItemRow] that
    [collections.namedtuple] builds from it, the derived properties of
    [ItemInfo] and [fetch_item_infos].

    Conventions of the embedding.
    - A column value is [None] or a scalar, so every field of [ItemRow] is an
      [option].  The scalar type of a column is the one the properties use it
      at (the [schema] module that declares them is imported by the source,
      not part of it).
    - A property that can raise returns [Res]; [Raise e] is the exception
      leaving the property.
    - Python [unicode] and [str] objects are both carried by [string]
      (the UTF-8 bytes of the text); [PyStr] keeps which of the two it is.
    - A Python [float] is carried by the rational it denotes ([Q]); binary64
      rounding is not modelled.  Sizes and counts below 2^53 convert to
      [float] without rounding.
    - The interpreter is Python 2: [None > 0] is [False], [/] on a [float]
      is true division and [//] is floor division. *)

From Stdlib Require Import ZArith QArith Qround List String Ascii Bool Lia.
From Stdlib Require Import DecimalString.
Import ListNotations.
Open Scope string_scope.
Open Scope Z_scope.

(** ** Exceptions and results *)

Inductive PyExc : Type :=
| TypeError
| AttributeError
| ZeroDivisionError
| OverflowError
| OSError
| NameError (name : string)
| AssertionError (msg : string).

Inductive Res (A : Type) : Type :=
| Ok (a : A)
| Raise (e : PyExc).
Arguments Ok {A} a.
Arguments Raise {A} e.

Definition bind {A B : Type} (m : Res A) (k : A -> Res B) : Res B :=
  match m with
  | Ok a => k a
  | Raise e => Raise e
  end.

Notation "x <- m ;; k" := (bind m (fun x => k))
  (at level 61, m at next level, right associativity).

Definition raises {A : Type} (m : Res A) : Prop := exists e, m = Raise e.

(** ** Scalars *)

(** A text object: [U s] is [unicode], [B s] is a byte [str]. *)
Inductive PyStr : Type :=
| U (s : string)
| B (s : string).

(** [datetime.datetime] and [datetime.timedelta], both counted in
    microseconds; a [datetime] counts from 0001-01-01T00:00:00. *)
Definition datetime : Type := Z.
Definition timedelta : Type := Z.

Definition us_per_day : Z := 86400 * 1000000.

(** [date.max.toordinal()] is 3652059: the last representable instant is the
    last microsecond of 9999-12-31. *)
Definition datetime_end : Z := 3652059 * us_per_day.

(** [datetime.timedelta(days=d)]: the day count of a [timedelta] is limited
    to 999999999 in absolute value. *)
Definition timedelta_of_days (d : Z) : Res timedelta :=
  if Z.abs d <=? 999999999 then Ok (d * us_per_day) else Raise OverflowError.

(** [datetime + timedelta]: the sum has to stay in years 1..9999. *)
Definition datetime_add (t : datetime) (d : timedelta) : Res datetime :=
  if (0 <=? t + d) && (t + d <? datetime_end) then Ok (t + d)
  else Raise OverflowError.

(** Truth value of a nullable flag column, as [if self.keep] takes it. *)
Definition truthy (v : option bool) : bool :=
  match v with
  | Some b => b
  | None => false
  end.

(** Truth value of a nullable text column: [None] and [u''] are false. *)
Definition truthy_text (v : option string) : bool :=
  match v with
  | Some s => negb (s =? "")%string
  | None => false
  end.

Definition is_None {A : Type} (v : option A) : bool :=
  match v with
  | Some _ => false
  | None => true
  end.

(** [v == lit] for a nullable text column and a literal. *)
Definition text_eq (v : option string) (lit : string) : bool :=
  match v with
  | Some s => (s =? lit)%string
  | None => false
  end.

(** [v > 0] for a nullable integer column.  Python 2 orders [None] below
    every number, so [None > 0] is [False] and does not raise. *)
Definition gt0 (v : option Z) : bool :=
  match v with
  | Some z => 0 <? z
  | None => false
  end.

(** [float(v)] for a nullable integer column: [float(None)] is a
    [TypeError]. *)
Definition py_float (v : option Z) : Res Q :=
  match v with
  | Some z => Ok (inject_Z z)
  | None => Raise TypeError
  end.

(** [x / v] for a [float] [x] and a nullable integer column [v]. *)
Definition float_div (x : Q) (v : option Z) : Res Q :=
  match v with
  | Some z => if z =? 0 then Raise ZeroDivisionError
              else Ok (x / inject_Z z)%Q
  | None => Raise TypeError
  end.

(** [int(x)] for a [float] [x]: truncation toward zero. *)
Definition py_int (x : Q) : Z := Z.quot (Qnum x) (Zpos (Qden x)).

(** ** The column registry *)

Record SelectColumn : Type := Build_SelectColumn {
  table : string;
  column : string;
  attr_name : string
}.

(** [SelectColumn.__init__]: the attribute takes the column's name unless
    another one is given. *)
Definition SelectColumn_init (table column : string)
    (attr_name : option string) : SelectColumn :=
  match attr_name with
  | None => Build_SelectColumn table column column
  | Some a => Build_SelectColumn table column a
  end.

Definition _column_info : list SelectColumn := [
  SelectColumn_init "item" "id" None;
  SelectColumn_init "item" "new" None;
  SelectColumn_init "item" "title" None;
  SelectColumn_init "item" "feed_id" None;
  SelectColumn_init "item" "parent_id" None;
  SelectColumn_init "item" "parent_title" None;
  SelectColumn_init "item" "downloader_id" None;
  SelectColumn_init "item" "is_file_item" None;
  SelectColumn_init "item" "pending_manual_download" None;
  SelectColumn_init "item" "pending_reason" None;
  SelectColumn_init "item" "expired" None;
  SelectColumn_init "item" "keep" None;
  SelectColumn_init "item" "creation_time" (Some "date_added");
  SelectColumn_init "item" "downloaded_time" None;
  SelectColumn_init "item" "watched_time" None;
  SelectColumn_init "item" "last_watched" None;
  SelectColumn_init "item" "subtitle_encoding" None;
  SelectColumn_init "item" "is_container_item" None;
  SelectColumn_init "item" "release_date" None;
  SelectColumn_init "item" "duration" (Some "duration_ms");
  SelectColumn_init "item" "screenshot" None;
  SelectColumn_init "item" "resume_time" None;
  SelectColumn_init "item" "license" None;
  SelectColumn_init "item" "rss_id" None;
  SelectColumn_init "item" "entry_description" None;
  SelectColumn_init "item" "enclosure_type" (Some "mime_type");
  SelectColumn_init "item" "enclosure_format" None;
  SelectColumn_init "item" "enclosure_size" None;
  SelectColumn_init "item" "link" (Some "permalink");
  SelectColumn_init "item" "payment_link" None;
  SelectColumn_init "item" "comments_link" None;
  SelectColumn_init "item" "url" None;
  SelectColumn_init "item" "was_downloaded" None;
  SelectColumn_init "item" "filename" (Some "raw_filename");
  SelectColumn_init "item" "play_count" None;
  SelectColumn_init "item" "skip_count" None;
  SelectColumn_init "item" "cover_art" None;
  SelectColumn_init "item" "description" None;
  SelectColumn_init "item" "album" None;
  SelectColumn_init "item" "album_artist" None;
  SelectColumn_init "item" "artist" None;
  SelectColumn_init "item" "track" None;
  SelectColumn_init "item" "album_tracks" None;
  SelectColumn_init "item" "year" None;
  SelectColumn_init "item" "genre" None;
  SelectColumn_init "item" "rating" None;
  SelectColumn_init "item" "file_type" None;
  SelectColumn_init "item" "has_drm" None;
  SelectColumn_init "item" "show" None;
  SelectColumn_init "item" "episode_id" None;
  SelectColumn_init "item" "episode_number" None;
  SelectColumn_init "item" "season_number" None;
  SelectColumn_init "item" "kind" None;
  SelectColumn_init "item" "net_lookup_enabled" None;
  SelectColumn_init "item" "eligible_for_autodownload" None;
  SelectColumn_init "feed" "orig_url" (Some "feed_url");
  SelectColumn_init "feed" "expire" (Some "feed_expire");
  SelectColumn_init "feed" "expireTime" (Some "feed_expire_time");
  SelectColumn_init "feed" "autoDownloadable" (Some "feed_auto_downloadable");
  SelectColumn_init "feed" "getEverything" (Some "feed_get_everything");
  SelectColumn_init "icon_cache" "filename" (Some "raw_icon_cache_filename");
  SelectColumn_init "remote_downloader" "content_type" (Some "downloader_content_type");
  SelectColumn_init "remote_downloader" "state" (Some "downloader_state");
  SelectColumn_init "remote_downloader" "reason_failed" None;
  SelectColumn_init "remote_downloader" "short_reason_failed" None;
  SelectColumn_init "remote_downloader" "type" (Some "downloader_type");
  SelectColumn_init "remote_downloader" "retry_time" None;
  SelectColumn_init "remote_downloader" "eta" None;
  SelectColumn_init "remote_downloader" "rate" None;
  SelectColumn_init "remote_downloader" "upload_rate" None;
  SelectColumn_init "remote_downloader" "current_size" (Some "downloaded_size");
  SelectColumn_init "remote_downloader" "total_size" (Some "downloader_size");
  SelectColumn_init "remote_downloader" "upload_size" None;
  SelectColumn_init "remote_downloader" "activity" (Some "startup_activity");
  SelectColumn_init "remote_downloader" "seeders" None;
  SelectColumn_init "remote_downloader" "leechers" None;
  SelectColumn_init "remote_downloader" "connections" None
].

Definition column_info : list SelectColumn := _column_info.

Definition join_sql : string :=
  "LEFT JOIN feed ON feed.id=item.feed_id" ++ String "010"
  ("LEFT JOIN remote_downloader ON remote_downloader.id=item.downloader_id"
   ++ String "010"
   "LEFT JOIN icon_cache ON icon_cache.id=item.icon_cache_id").

(** ** Rows *)

(** [ItemRow = namedtuple("ItemRow", [c.attr_name for c in column_info()])]:
    one field per column, in registry order. *)
Record ItemRow : Type := Build_ItemRow {
  id : option Z;
  new : option bool;
  title : option string;
  feed_id : option Z;
  parent_id : option Z;
  parent_title : option string;
  downloader_id : option Z;
  is_file_item : option bool;
  pending_manual_download : option bool;
  pending_reason : option string;
  expired : option bool;
  keep : option bool;
  date_added : option datetime;
  downloaded_time : option datetime;
  watched_time : option datetime;
  last_watched : option datetime;
  subtitle_encoding : option string;
  is_container_item : option bool;
  release_date : option datetime;
  duration_ms : option Z;
  screenshot : option string;
  resume_time : option Z;
  license : option string;
  rss_id : option string;
  entry_description : option string;
  mime_type : option string;
  enclosure_format : option string;
  enclosure_size : option Z;
  permalink : option string;
  payment_link : option string;
  comments_link : option string;
  url : option string;
  was_downloaded : option bool;
  raw_filename : option string;
  play_count : option Z;
  skip_count : option Z;
  cover_art : option string;
  description : option string;
  album : option string;
  album_artist : option string;
  artist : option string;
  track : option Z;
  album_tracks : option Z;
  year : option Z;
  genre : option string;
  rating : option Z;
  file_type : option string;
  has_drm : option bool;
  show : option string;
  episode_id : option string;
  episode_number : option Z;
  season_number : option Z;
  kind : option string;
  net_lookup_enabled : option bool;
  eligible_for_autodownload : option bool;
  feed_url : option string;
  feed_expire : option string;
  feed_expire_time : option timedelta;
  feed_auto_downloadable : option bool;
  feed_get_everything : option bool;
  raw_icon_cache_filename : option string;
  downloader_content_type : option string;
  downloader_state : option string;
  reason_failed : option string;
  short_reason_failed : option string;
  downloader_type : option string;
  retry_time : option datetime;
  eta : option Z;
  rate : option Z;
  upload_rate : option Z;
  downloaded_size : option Z;
  downloader_size : option Z;
  upload_size : option Z;
  startup_activity : option string;
  seeders : option Z;
  leechers : option Z;
  connections : option Z
}.

(** The field names of [ItemRow] are the attribute names of the registry. *)
Definition ItemRow_fields : list string := map attr_name column_info.

(** The row every column of which is [None]. *)
Definition null_row : ItemRow := {|
  id := None;
  new := None;
  title := None;
  feed_id := None;
  parent_id := None;
  parent_title := None;
  downloader_id := None;
  is_file_item := None;
  pending_manual_download := None;
  pending_reason := None;
  expired := None;
  keep := None;
  date_added := None;
  downloaded_time := None;
  watched_time := None;
  last_watched := None;
  subtitle_encoding := None;
  is_container_item := None;
  release_date := None;
  duration_ms := None;
  screenshot := None;
  resume_time := None;
  license := None;
  rss_id := None;
  entry_description := None;
  mime_type := None;
  enclosure_format := None;
  enclosure_size := None;
  permalink := None;
  payment_link := None;
  comments_link := None;
  url := None;
  was_downloaded := None;
  raw_filename := None;
  play_count := None;
  skip_count := None;
  cover_art := None;
  description := None;
  album := None;
  album_artist := None;
  artist := None;
  track := None;
  album_tracks := None;
  year := None;
  genre := None;
  rating := None;
  file_type := None;
  has_drm := None;
  show := None;
  episode_id := None;
  episode_number := None;
  season_number := None;
  kind := None;
  net_lookup_enabled := None;
  eligible_for_autodownload := None;
  feed_url := None;
  feed_expire := None;
  feed_expire_time := None;
  feed_auto_downloadable := None;
  feed_get_everything := None;
  raw_icon_cache_filename := None;
  downloader_content_type := None;
  downloader_state := None;
  reason_failed := None;
  short_reason_failed := None;
  downloader_type := None;
  retry_time := None;
  eta := None;
  rate := None;
  upload_rate := None;
  downloaded_size := None;
  downloader_size := None;
  upload_size := None;
  startup_activity := None;
  seeders := None;
  leechers := None;
  connections := None
|}.

Definition ItemRow_eta (r : ItemRow) : ItemRow :=
  Build_ItemRow
    (id r) (new r) (title r) (feed_id r) (parent_id r) (parent_title r)
    (downloader_id r) (is_file_item r) (pending_manual_download r)
    (pending_reason r) (expired r) (keep r) (date_added r)
    (downloaded_time r) (watched_time r) (last_watched r)
    (subtitle_encoding r) (is_container_item r) (release_date r)
    (duration_ms r) (screenshot r) (resume_time r) (license r) (rss_id r)
    (entry_description r) (mime_type r) (enclosure_format r)
    (enclosure_size r) (permalink r) (payment_link r) (comments_link r)
    (url r) (was_downloaded r) (raw_filename r) (play_count r)
    (skip_count r) (cover_art r) (description r) (album r) (album_artist r)
    (artist r) (track r) (album_tracks r) (year r) (genre r) (rating r)
    (file_type r) (has_drm r) (show r) (episode_id r) (episode_number r)
    (season_number r) (kind r) (net_lookup_enabled r)
    (eligible_for_autodownload r) (feed_url r) (feed_expire r)
    (feed_expire_time r) (feed_auto_downloadable r) (feed_get_everything r)
    (raw_icon_cache_filename r) (downloader_content_type r)
    (downloader_state r) (reason_failed r) (short_reason_failed r)
    (downloader_type r) (retry_time r) (eta r) (rate r) (upload_rate r)
    (downloaded_size r) (downloader_size r) (upload_size r)
    (startup_activity r) (seeders r) (leechers r) (connections r).

(** [r] with one field replaced: the field is named by its projection, the
    other 76 are copied. *)
Ltac row_with proj v r :=
  let e := eval cbv beta delta [ItemRow_eta] in (ItemRow_eta r) in
  match eval pattern (proj r) in e with
  | ?f _ => let t := eval cbv beta in (f v) in exact t
  end.

Definition with_id (v : option Z) (r : ItemRow) : ItemRow :=
  ltac:(row_with id v r).
Definition with_url (v : option string) (r : ItemRow) : ItemRow :=
  ltac:(row_with url v r).
Definition with_keep (v : option bool) (r : ItemRow) : ItemRow :=
  ltac:(row_with keep v r).
Definition with_watched_time (v : option datetime) (r : ItemRow) : ItemRow :=
  ltac:(row_with watched_time v r).
Definition with_raw_filename (v : option string) (r : ItemRow) : ItemRow :=
  ltac:(row_with raw_filename v r).
Definition with_is_container_item (v : option bool) (r : ItemRow) : ItemRow :=
  ltac:(row_with is_container_item v r).
Definition with_duration_ms (v : option Z) (r : ItemRow) : ItemRow :=
  ltac:(row_with duration_ms v r).
Definition with_screenshot (v : option string) (r : ItemRow) : ItemRow :=
  ltac:(row_with screenshot v r).
Definition with_enclosure_size (v : option Z) (r : ItemRow) : ItemRow :=
  ltac:(row_with enclosure_size v r).
Definition with_play_count (v : option Z) (r : ItemRow) : ItemRow :=
  ltac:(row_with play_count v r).
Definition with_skip_count (v : option Z) (r : ItemRow) : ItemRow :=
  ltac:(row_with skip_count v r).
Definition with_cover_art (v : option string) (r : ItemRow) : ItemRow :=
  ltac:(row_with cover_art v r).
Definition with_file_type (v : option string) (r : ItemRow) : ItemRow :=
  ltac:(row_with file_type v r).
Definition with_feed_expire (v : option string) (r : ItemRow) : ItemRow :=
  ltac:(row_with feed_expire v r).
Definition with_feed_expire_time (v : option timedelta) (r : ItemRow)
    : ItemRow :=
  ltac:(row_with feed_expire_time v r).
Definition with_raw_icon_cache_filename (v : option string) (r : ItemRow)
    : ItemRow :=
  ltac:(row_with raw_icon_cache_filename v r).
Definition with_downloader_state (v : option string) (r : ItemRow) : ItemRow :=
  ltac:(row_with downloader_state v r).
Definition with_downloader_type (v : option string) (r : ItemRow) : ItemRow :=
  ltac:(row_with downloader_type v r).
Definition with_downloaded_size (v : option Z) (r : ItemRow) : ItemRow :=
  ltac:(row_with downloaded_size v r).
Definition with_downloader_size (v : option Z) (r : ItemRow) : ItemRow :=
  ltac:(row_with downloader_size v r).
Definition with_upload_size (v : option Z) (r : ItemRow) : ItemRow :=
  ltac:(row_with upload_size v r).

Example with_keep_null :
  keep (with_keep (Some true) null_row) = Some true
  /\ watched_time (with_keep (Some true) null_row) = None.
Proof. split; reflexivity. Qed.

(** ** What the properties read besides the row

    [fileutil.exists], [os.path.getsize], [resources.path], the platform's
    filename type, the [EXPIRE_AFTER_X_DAYS] setting and the database behind
    a connection are outside the module; a [World] fixes them. *)
Record World : Type := Build_World {
  (** [PlatformFilenameType == unicode] *)
  filename_type_is_unicode : bool;
  (** [fileutil.exists(path)] *)
  fileutil_exists : PyStr -> bool;
  (** [os.path.getsize(path)]: the size, or the exception it raises *)
  os_path_getsize : PyStr -> Res Z;
  (** [resources.path(relative_path)] *)
  resources_path : string -> PyStr;
  (** [app.config.get(prefs.EXPIRE_AFTER_X_DAYS)] *)
  config_expire_after_x_days : Z;
  (** the rows of [item] with [feed], [remote_downloader] and [icon_cache]
      left-joined to them, in the order the store returns them *)
  db_rows : list ItemRow
}.

(** The names bound at module level in [item.py]: its imports and its
    top-level definitions. *)
Definition module_globals : list string :=
  ["collections"; "datetime"; "os"; "app"; "displaytext"; "filetypes";
   "fileutil"; "prefs"; "schema"; "util"; "resources";
   "PlatformFilenameType"; "SelectColumn"; "_column_info"; "column_info";
   "join_sql"; "ItemRow"; "_unicode_to_filename"; "ItemInfo";
   "fetch_item_infos"].

(** Reading a name that is not local to the function: it is looked up in the
    module's globals (no builtin is called [feed_expire_time]), and a name
    bound nowhere is a [NameError]. *)
Definition load_global (name : string) : Res string :=
  if existsb (String.eqb name) module_globals then Ok name
  else Raise (NameError name).

(** ** ItemInfo *)

Definition _unicode_to_filename (w : World) (unicode_value : option string)
    : option PyStr :=
  match unicode_value with
  | Some s => if negb (filename_type_is_unicode w) then Some (B s)
              else Some (U s)
  | None => None
  end.

Definition filename (w : World) (r : ItemRow) : option PyStr :=
  _unicode_to_filename w (raw_filename r).

Definition has_filename (r : ItemRow) : bool :=
  negb (is_None (raw_filename r)).

Definition downloaded (r : ItemRow) : bool := has_filename r.

Definition icon_cache_filename (w : World) (r : ItemRow) : option PyStr :=
  _unicode_to_filename w (raw_icon_cache_filename r).

Definition cover_art_filename (w : World) (r : ItemRow) : option PyStr :=
  _unicode_to_filename w (cover_art r).

Definition is_playable (r : ItemRow) : bool :=
  has_filename r && negb (text_eq (file_type r) "other").

Definition is_torrent (r : ItemRow) : bool :=
  text_eq (downloader_type r) "BitTorrent".

(** [self.is_torrent and self.is_container_item]: [and] gives its left
    operand when that is false and its right operand otherwise, so the value
    is [False] or whatever the column holds. *)
Definition is_torrent_folder (r : ItemRow) : option bool :=
  if is_torrent r then is_container_item r else Some false.

(** Where [thumbnail] ends up when no file is found: the stock images. *)
Definition thumbnail_default (w : World) (r : ItemRow) : PyStr :=
  if truthy (is_container_item r) then
    resources_path w "images/thumb-default-folder.png"
  else if text_eq (file_type r) "audio" then
    resources_path w "images/thumb-default-audio.png"
  else
    resources_path w "images/thumb-default-video.png".

(** [fileutil.exists] applied to a value that may be [None]; the callers
    below only reach it with a value. *)
Definition exists_opt (w : World) (p : option PyStr) : bool :=
  match p with
  | Some f => fileutil_exists w f
  | None => false
  end.

Definition thumbnail (w : World) (r : ItemRow) : option PyStr :=
  if truthy_text (cover_art r) && exists_opt w (cover_art_filename w r) then
    cover_art_filename w r
  else if negb (is_None (raw_icon_cache_filename r))
          && exists_opt w (icon_cache_filename w r) then
    icon_cache_filename w r
  else if truthy_text (screenshot r)
          && exists_opt w (option_map U (screenshot r)) then
    option_map U (screenshot r)
  else
    Some (thumbnail_default w r).

(** [self.url != u'' and not self.url.startswith(u"file:")]: on [None] the
    first comparison is true and the attribute lookup then fails. *)
Definition has_shareable_url (r : ItemRow) : Res bool :=
  match url r with
  | Some s => Ok (negb (s =? "")%string && negb (prefix "file:" s))
  | None => Raise AttributeError
  end.

Definition is_download (r : ItemRow) : bool :=
  text_eq (downloader_state r) "downloading"
  || text_eq (downloader_state r) "paused".

Definition is_paused (r : ItemRow) : bool :=
  text_eq (downloader_state r) "paused".

Definition is_seeding (r : ItemRow) : bool :=
  text_eq (downloader_state r) "uploading".

Definition is_failed_download (r : ItemRow) : bool :=
  text_eq (downloader_state r) "failed".

Definition size (w : World) (r : ItemRow) : Res (option Z) :=
  if has_filename r then
    match filename w r with
    | Some f =>
        match os_path_getsize w f with
        | Ok n => Ok (Some n)
        | Raise OSError => Ok None
        | Raise e => Raise e
        end
    | None => Raise TypeError
    end
  else if is_download r then Ok (downloader_size r)
  else Ok (enclosure_size r).

Definition video_watched (r : ItemRow) : bool :=
  negb (is_None (watched_time r)).

(** [datetime + g] for an object [g] found in the module's globals: modules,
    classes, functions and the column list do not add to a [datetime]. *)
Definition datetime_add_global (t : datetime) (g : string) : Res datetime :=
  Raise TypeError.

(** ["%s" % v] for a nullable text column. *)
Definition format_text (v : option string) : string :=
  match v with
  | Some s => s
  | None => "None"
  end.

Definition expiration_date (w : World) (r : ItemRow)
    : Res (option datetime) :=
  match watched_time r with
  | None => Ok None
  | Some watched =>
      if negb (has_filename r) || truthy (keep r) then Ok None
      else if text_eq (feed_expire r) "never" then Ok None
      else if text_eq (feed_expire r) "feed" then
        expire_time <- load_global "feed_expire_time" ;;
        d <- datetime_add_global watched expire_time ;;
        Ok (Some d)
      else if text_eq (feed_expire r) "system" then
        let days := config_expire_after_x_days w in
        if days <=? 0 then Ok None
        else
          expire_time <- timedelta_of_days days ;;
          d <- datetime_add watched expire_time ;;
          Ok (Some d)
      else
        Raise (AssertionError
                 ("Unknown expire value: " ++ format_text (feed_expire r)))
  end.

Definition can_be_saved (r : ItemRow) : bool :=
  has_filename r && negb (truthy (keep r)).

(** [v in (0, None)] for a nullable integer column. *)
Definition in_0_None (v : option Z) : bool :=
  match v with
  | Some z => z =? 0
  | None => true
  end.

Definition download_progress (r : ItemRow) : Res (option Q) :=
  if in_0_None (downloaded_size r) then Ok (Some 0%Q)
  else if is_None (downloaded_size r) || is_None (downloader_size r) then
    Ok None
  else
    x <- py_float (downloaded_size r) ;;
    q <- float_div x (downloader_size r) ;;
    Ok (Some q).

Definition upload_ratio (r : ItemRow) : Res Q :=
  x <- py_float (upload_size r) ;;
  float_div x (downloaded_size r).

Definition has_parent (r : ItemRow) : bool :=
  negb (is_None (parent_id r)).

(** [if self.is_file_item: return self.has_parent] and otherwise the
    comparison with the manual feed's URL. *)
Definition is_external (r : ItemRow) : bool :=
  if truthy (is_file_item r) then has_parent r
  else text_eq (feed_url r) "dtv:manualFeed".

Definition parent_title_for_sort (r : ItemRow)
    : option string * option Z * option Z :=
  (parent_title r, feed_id r, parent_id r).

(** An integer operand of an arithmetic operator: [None] there is a
    [TypeError]. *)
Definition int_operand (v : option Z) : Res Z :=
  match v with
  | Some z => Ok z
  | None => Raise TypeError
  end.

Definition SKIP_FACTOR : Q := 3 # 2.
Definition UNSKIPPED_FACTOR : Z := 2.

Definition auto_rating (r : ItemRow) : Res (option Z) :=
  if gt0 (play_count r) then
    if gt0 (skip_count r) then
      p <- int_operand (play_count r) ;;
      s <- int_operand (skip_count r) ;;
      Ok (Some (Z.min 5 (Z.max 1
                  (py_int (inject_Z p - SKIP_FACTOR * inject_Z s)%Q))))
    else
      p <- int_operand (play_count r) ;;
      Ok (Some (Z.min 5 (UNSKIPPED_FACTOR * p)))
  else if gt0 (skip_count r) then Ok (Some 1)
  else Ok None.

Definition duration (r : ItemRow) : option Z :=
  match duration_ms r with
  | None => None
  | Some ms => Some (ms / 1000)
  end.

(** ** Fetching rows *)

(** [str(item_id)] *)
Definition str_of_int (z : Z) : string :=
  NilZero.string_of_int (Z.to_int z).

(** The statement [fetch_item_infos] sends: its text, and the identifiers of
    its [IN] list as the store reads them back. *)
Record Select : Type := Build_Select {
  sql : string;
  in_list : list Z
}.

(** [connection.execute(sql)] over the rows of the store: the rows of the
    join whose [item.id] is one of the listed identifiers, in the store's
    order.  A [NULL] id is in no list, and an empty list selects nothing. *)
Definition connection_execute (w : World) (q : Select) : list ItemRow :=
  filter (fun row =>
            match id row with
            | Some i => existsb (Z.eqb i) (in_list q)
            | None => false
            end)
         (db_rows w).

Definition fetch_item_infos (w : World) (item_ids : list Z) : list ItemRow :=
  let columns :=
    String.concat "," (map (fun c => table c ++ "." ++ column c)
                           column_info) in
  let ids := String.concat "," (map str_of_int item_ids) in
  let q := Build_Select
             ("SELECT " ++ columns ++ " FROM item " ++ join_sql
              ++ " WHERE item.id IN (" ++ ids ++ ")")
             item_ids in
  connection_execute w q.

(** ** Concrete worlds and rows *)

(** A platform with byte-string filenames, a resource directory, the default
    retention of six days, two files on disk and two rows in the store. *)
Definition example_world : World := {|
  filename_type_is_unicode := false;
  fileutil_exists := fun p =>
    match p with
    | B s => (s =? "/home/u/.miro/icon-cache/42.png")%string
             || (s =? "/home/u/Videos/talk.ogv")%string
    | U _ => false
    end;
  os_path_getsize := fun p =>
    match p with
    | B s => if (s =? "/home/u/Videos/talk.ogv")%string then Ok 734003200
             else Raise OSError
    | U _ => Raise OSError
    end;
  resources_path := fun rel => B ("/usr/share/miro/resources/" ++ rel);
  config_expire_after_x_days := 6;
  db_rows := [with_id (Some 1) null_row; with_id (Some 2) null_row]
|}.

(** 2012-01-01T00:00:00, as microseconds from 0001-01-01: day 734502
    counted from 0. *)
Definition new_year_2012 : datetime := 734502 * us_per_day.

(** A feed item that was downloaded and watched and is not kept; the feed
    policy is left to the caller. *)
Definition watched_row (policy : option string) : ItemRow :=
  with_feed_expire policy
    (with_keep (Some false)
       (with_raw_filename (Some "/home/u/Videos/talk.ogv")
          (with_watched_time (Some new_year_2012)
             (with_url (Some "http://example.org/talk.ogv")
                (with_id (Some 1) null_row))))).

(** An item of a feed that has no downloader row: every
    [remote_downloader] column is [None]. *)
Definition row_without_downloader : ItemRow :=
  with_feed_expire (Some "system")
    (with_enclosure_size (Some 1048576)
       (with_url (Some "http://example.org/talk.ogv")
          (with_id (Some 1) null_row))).

Example str_of_int_examples :
  str_of_int 0 = "0" /\ str_of_int (-15) = "-15" /\ str_of_int 120 = "120".
Proof. repeat split; reflexivity. Qed.

(** ** Helper lemmas *)

Lemma text_eq_true (v : option string) (lit : string) :
  text_eq v lit = true <-> v = Some lit.
Proof.
  destruct v as [s|]; simpl.
  - rewrite String.eqb_eq. split; intros H; [now subst | now inversion H].
  - split; discriminate.
Qed.

Lemma text_eq_false (v : option string) (lit : string) :
  text_eq v lit = false <-> v <> Some lit.
Proof.
  rewrite <- text_eq_true. destruct (text_eq v lit); intuition congruence.
Qed.

Lemma is_download_iff (r : ItemRow) :
  is_download r = true
  <-> downloader_state r = Some "downloading"
      \/ downloader_state r = Some "paused".
Proof.
  unfold is_download. rewrite orb_true_iff, !text_eq_true. reflexivity.
Qed.

Lemma has_filename_iff (r : ItemRow) :
  has_filename r = true <-> raw_filename r <> None.
Proof.
  unfold has_filename. destruct (raw_filename r); simpl; split;
    intros H; try reflexivity; try discriminate.
  now contradiction H.
Qed.

(** [p - 1.5 * s] is [(2p - 3s) / 2], so [int] of it is the quotient of
    [2p - 3s] by 2 rounded toward zero. *)
Lemma py_int_skip (p s : Z) :
  py_int (inject_Z p - SKIP_FACTOR * inject_Z s)%Q
  = Z.quot (2 * p - 3 * s) 2.
Proof.
  unfold py_int, SKIP_FACTOR, Qminus, Qplus, Qopp, Qmult, inject_Z.
  cbn [Qnum Qden]. f_equal. lia.
Qed.

Lemma float_ratio_bounds (d t : Z) :
  0 < d -> d <= t -> (0 <= inject_Z d / inject_Z t <= 1)%Q.
Proof.
  intros Hd Hdt.
  assert (Ht : (0 < inject_Z t)%Q).
  { change 0%Q with (inject_Z 0). rewrite <- Zlt_Qlt. lia. }
  split.
  - apply Qle_shift_div_l; [exact Ht|].
    rewrite Qmult_0_l. change 0%Q with (inject_Z 0).
    rewrite <- Zle_Qle. lia.
  - apply Qle_shift_div_r; [exact Ht|].
    rewrite Qmult_1_l. rewrite <- Zle_Qle. exact Hdt.
Qed.

(** ** Duration *)

Example duration_65000 :
  duration (with_duration_ms (Some 65000) null_row) = Some 65.
Proof. reflexivity. Qed.

Example duration_999 :
  duration (with_duration_ms (Some 999) null_row) = Some 0.
Proof. reflexivity. Qed.

(** C9.  [duration] is the stored [duration_ms] floor-divided by 1000 when
    the column holds a value, and [None] when the column is [None]. *)
Theorem duration_floor_div (r : ItemRow) :
  (forall ms, duration_ms r = Some ms -> duration r = Some (ms / 1000))
  /\ (duration_ms r = None -> duration r = None).
Proof.
  unfold duration. split.
  - intros ms H. now rewrite H.
  - intros H. now rewrite H.
Qed.

Lemma duration_floor_div_witness :
  duration_ms (with_duration_ms (Some 65000) null_row) = Some 65000
  /\ duration (with_duration_ms (Some 65000) null_row) = Some 65
  /\ duration_ms null_row = None
  /\ duration null_row = None.
Proof.
  split; [reflexivity|]. split.
  - exact (proj1 (duration_floor_div (with_duration_ms (Some 65000) null_row))
             65000 eq_refl).
  - split; [reflexivity|].
    exact (proj2 (duration_floor_div null_row) eq_refl).
Defined.

(** ** Status flags *)

Example paused_row_flags :
  let r := with_downloader_state (Some "paused") null_row in
  is_paused r = true /\ is_download r = true /\ is_seeding r = false
  /\ is_failed_download r = false.
Proof. repeat split; reflexivity. Qed.

Example torrent_folder_unknown_container :
  is_torrent_folder (with_downloader_type (Some "BitTorrent") null_row)
  = None.
Proof. reflexivity. Qed.

(** C10.  A paused row is a download, and a row whose [is_torrent_folder]
    is true is a torrent: neither flag can be true with the other false. *)
Theorem status_flag_implications (r : ItemRow) :
  (is_paused r = true -> is_download r = true)
  /\ (truthy (is_torrent_folder r) = true -> is_torrent r = true).
Proof.
  split.
  - unfold is_paused, is_download. intros H. rewrite H. apply orb_true_r.
  - unfold is_torrent_folder. destruct (is_torrent r); [reflexivity|].
    simpl. intros H. exact H.
Qed.

Lemma status_flag_implications_witness :
  let p := with_downloader_state (Some "paused") null_row in
  let t := with_is_container_item (Some true)
             (with_downloader_type (Some "BitTorrent") null_row) in
  (is_paused p = true /\ is_download p = true)
  /\ (truthy (is_torrent_folder t) = true /\ is_torrent t = true).
Proof.
  intros p t. split; split.
  - reflexivity.
  - exact (proj1 (status_flag_implications p) eq_refl).
  - reflexivity.
  - exact (proj2 (status_flag_implications t) eq_refl).
Defined.

(** ** Automatic rating *)

Definition counted_row (plays skips : Z) : ItemRow :=
  with_skip_count (Some skips) (with_play_count (Some plays) null_row).

Example auto_rating_4_2 : auto_rating (counted_row 4 2) = Ok (Some 1).
Proof. reflexivity. Qed.

Example auto_rating_3_0 : auto_rating (counted_row 3 0) = Ok (Some 5).
Proof. reflexivity. Qed.

Example auto_rating_1_0 : auto_rating (counted_row 1 0) = Ok (Some 2).
Proof. reflexivity. Qed.

Example auto_rating_0_2 : auto_rating (counted_row 0 2) = Ok (Some 1).
Proof. reflexivity. Qed.

Example auto_rating_0_0 : auto_rating (counted_row 0 0) = Ok None.
Proof. reflexivity. Qed.

Example auto_rating_9_2 : auto_rating (counted_row 9 2) = Ok (Some 5).
Proof. reflexivity. Qed.

Example auto_rating_8_3 : auto_rating (counted_row 8 3) = Ok (Some 3).
Proof. reflexivity. Qed.

(** The rows without counts: Python 2 compares [None > 0] to [False]. *)
Example auto_rating_null : auto_rating null_row = Ok None.
Proof. reflexivity. Qed.

(** C7.  With non-negative counts [p] plays and [s] skips, [auto_rating] is
    [None] for [p = s = 0]; for [p > 0] and [s > 0] it is [p - 1.5 s]
    truncated to an integer and clamped to 1..5; for [p > 0] and [s = 0] it
    is [2 p] capped at 5; for [p = 0] and [s > 0] it is 1. *)
Theorem auto_rating_heuristic (r : ItemRow) (p s : Z) :
  play_count r = Some p -> skip_count r = Some s -> 0 <= p -> 0 <= s ->
  (p = 0 -> s = 0 -> auto_rating r = Ok None)
  /\ (0 < p -> 0 < s ->
      auto_rating r
      = Ok (Some (Z.min 5 (Z.max 1 (Z.quot (2 * p - 3 * s) 2))))
      /\ 1 <= Z.min 5 (Z.max 1 (Z.quot (2 * p - 3 * s) 2)) <= 5)
  /\ (0 < p -> s = 0 ->
      auto_rating r = Ok (Some (Z.min 5 (2 * p)))
      /\ 0 <= Z.min 5 (2 * p) <= 5)
  /\ (p = 0 -> 0 < s -> auto_rating r = Ok (Some 1)).
Proof.
  intros Hp Hs Hp0 Hs0. unfold auto_rating. rewrite Hp, Hs.
  cbn [gt0 int_operand bind].
  split; [|split; [|split]].
  - intros -> ->. reflexivity.
  - intros Hp1 Hs1.
    destruct (Z.ltb_spec 0 p); [|lia]. destruct (Z.ltb_spec 0 s); [|lia].
    rewrite py_int_skip. split; [reflexivity|lia].
  - intros Hp1 ->.
    destruct (Z.ltb_spec 0 p); [|lia]. cbn [Z.ltb Z.compare].
    unfold UNSKIPPED_FACTOR. split; [reflexivity|lia].
  - intros -> Hs1. cbn [Z.ltb Z.compare].
    destruct (Z.ltb_spec 0 s); [reflexivity|lia].
Qed.

Lemma auto_rating_heuristic_witness :
  play_count (counted_row 4 2) = Some 4
  /\ skip_count (counted_row 4 2) = Some 2
  /\ auto_rating (counted_row 4 2) = Ok (Some 1).
Proof.
  split; [reflexivity|]. split; [reflexivity|].
  exact (proj1 (proj1 (proj2 (auto_rating_heuristic (counted_row 4 2) 4 2
                                eq_refl eq_refl
                                ltac:(discriminate) ltac:(discriminate)))
                      eq_refl eq_refl)).
Defined.

(** ** Size *)

Example size_of_file_on_disk :
  size example_world (watched_row None) = Ok (Some 734003200).
Proof. reflexivity. Qed.

Example size_of_deleted_file :
  size example_world (with_raw_filename (Some "/home/u/Videos/gone.ogv")
                        (with_enclosure_size (Some 1048576) null_row))
  = Ok None.
Proof. reflexivity. Qed.

Example size_of_running_download :
  size example_world
       (with_downloader_state (Some "downloading")
          (with_downloader_size (Some 5000)
             (with_enclosure_size (Some 4096) null_row)))
  = Ok (Some 5000).
Proof. reflexivity. Qed.

Example size_of_feed_entry :
  size example_world row_without_downloader = Ok (Some 1048576).
Proof. reflexivity. Qed.

(** C6.  [size] takes the first source that applies: with a raw filename,
    the size of the file on disk, or [None] when the lookup fails with
    [OSError]; without one, the downloader's total size when the downloader
    state is "downloading" or "paused"; otherwise the enclosure's size. *)
Theorem size_resolution (w : World) (r : ItemRow) :
  (forall name f n,
      raw_filename r = Some name -> filename w r = Some f ->
      os_path_getsize w f = Ok n -> size w r = Ok (Some n))
  /\ (forall name f,
      raw_filename r = Some name -> filename w r = Some f ->
      os_path_getsize w f = Raise OSError -> size w r = Ok None)
  /\ (raw_filename r = None ->
      downloader_state r = Some "downloading"
      \/ downloader_state r = Some "paused" ->
      is_download r = true /\ size w r = Ok (downloader_size r))
  /\ (raw_filename r = None ->
      downloader_state r <> Some "downloading" ->
      downloader_state r <> Some "paused" ->
      is_download r = false /\ size w r = Ok (enclosure_size r)).
Proof.
  unfold size, has_filename.
  split; [|split; [|split]].
  - intros name f n Hraw Hf Hsz. rewrite Hraw, Hf, Hsz. reflexivity.
  - intros name f Hraw Hf Hsz. rewrite Hraw, Hf, Hsz. reflexivity.
  - intros Hraw Hst. rewrite Hraw. cbn [is_None negb].
    apply is_download_iff in Hst. rewrite Hst. split; reflexivity.
  - intros Hraw H1 H2. rewrite Hraw. cbn [is_None negb].
    assert (Hd : is_download r = false).
    { unfold is_download. apply orb_false_iff.
      split; now apply text_eq_false. }
    rewrite Hd. split; reflexivity.
Qed.

(** A row with a raw filename always has a filename to look up. *)
Lemma filename_of_raw (w : World) (r : ItemRow) (name : string) :
  raw_filename r = Some name -> exists f, filename w r = Some f.
Proof.
  unfold filename, _unicode_to_filename. intros ->.
  destruct (negb (filename_type_is_unicode w)); eexists; reflexivity.
Qed.

Lemma size_resolution_witness :
  size example_world (watched_row None) = Ok (Some 734003200)
  /\ size example_world
          (with_raw_filename (Some "/home/u/Videos/gone.ogv") null_row)
     = Ok None
  /\ size example_world
          (with_downloader_state (Some "paused")
             (with_downloader_size (Some 5000) null_row))
     = Ok (Some 5000)
  /\ size example_world row_without_downloader = Ok (Some 1048576).
Proof.
  split; [|split; [|split]].
  - exact (proj1 (size_resolution example_world (watched_row None))
             "/home/u/Videos/talk.ogv" (B "/home/u/Videos/talk.ogv")
             734003200 eq_refl eq_refl eq_refl).
  - exact (proj1 (proj2 (size_resolution example_world
                           (with_raw_filename
                              (Some "/home/u/Videos/gone.ogv") null_row)))
             "/home/u/Videos/gone.ogv" (B "/home/u/Videos/gone.ogv")
             eq_refl eq_refl eq_refl).
  - destruct (size_resolution example_world
                (with_downloader_state (Some "paused")
                   (with_downloader_size (Some 5000) null_row)))
      as (_ & _ & H & _).
    exact (proj2 (H eq_refl (or_intror eq_refl))).
  - destruct (size_resolution example_world row_without_downloader)
      as (_ & _ & _ & H).
    refine (proj2 (H eq_refl _ _)); discriminate.
Defined.

(** ** Fetching *)

Lemma filter_nothing {A : Type} (f : A -> bool) (l : list A) :
  (forall x, In x l -> f x = false) -> filter f l = [].
Proof.
  induction l as [|a l IH]; intros H; [reflexivity|].
  simpl. rewrite (H a (or_introl eq_refl)).
  apply IH. intros x Hx. apply H. now right.
Qed.

Example fetch_known_id :
  fetch_item_infos example_world [2] = [with_id (Some 2) null_row].
Proof. reflexivity. Qed.

Example fetch_both_ids :
  List.length (fetch_item_infos example_world [2; 1; 5]) = 2%nat.
Proof. reflexivity. Qed.

(** C4.  Fetching with no identifiers, or with identifiers none of which is
    the id of a stored row, gives the empty list; the function has no
    failing case. *)
Theorem fetch_item_infos_no_match (w : World) (item_ids : list Z) :
  item_ids = []
  \/ (forall row i, In row (db_rows w) -> id row = Some i ->
                    ~ In i item_ids) ->
  fetch_item_infos w item_ids = [].
Proof.
  intros H. unfold fetch_item_infos, connection_execute. cbn [in_list].
  apply filter_nothing. intros row Hrow.
  destruct (id row) as [i|] eqn:Hid; [|reflexivity].
  destruct H as [-> | H]; [reflexivity|].
  destruct (existsb (Z.eqb i) item_ids) eqn:He; [|reflexivity].
  apply existsb_exists in He. destruct He as [j [Hj Hij]].
  apply Z.eqb_eq in Hij. subst j. exfalso. exact (H row i Hrow Hid Hj).
Qed.

Lemma fetch_item_infos_no_match_witness :
  fetch_item_infos example_world [] = []
  /\ fetch_item_infos example_world [7; 9] = [].
Proof.
  split.
  - exact (fetch_item_infos_no_match example_world [] (or_introl eq_refl)).
  - apply (fetch_item_infos_no_match example_world [7; 9]). right.
    intros row i Hrow Hid Hin. simpl in Hrow.
    destruct Hrow as [<- | [<- | []]]; simpl in Hid; inversion Hid; subst i;
      simpl in Hin; destruct Hin as [H | [H | []]]; discriminate H.
Defined.

(** ** Thumbnail *)

(** The filename object made from the text [s] on the platform of [w]. *)
Definition platform_filename (w : World) (s : string) : PyStr :=
  if negb (filename_type_is_unicode w) then B s else U s.

Lemma unicode_to_filename_Some (w : World) (s : string) :
  _unicode_to_filename w (Some s) = Some (platform_filename w s).
Proof.
  unfold _unicode_to_filename, platform_filename.
  now destruct (negb (filename_type_is_unicode w)).
Qed.

(** The fallback chain as the specification words it: cover art if its file
    exists, else the icon-cache file if it exists, else the screenshot if
    the column is set -- its existence not looked at --, else the stock
    image. *)
Definition thumbnail_as_specified (w : World) (r : ItemRow) : option PyStr :=
  if exists_opt w (cover_art_filename w r) then cover_art_filename w r
  else if exists_opt w (icon_cache_filename w r) then icon_cache_filename w r
  else if truthy_text (screenshot r) then option_map U (screenshot r)
  else Some (thumbnail_default w r).

(** No usable cover art: the column is [None] or empty, or names a file that
    is not on disk. *)
Definition cover_art_unusable (w : World) (r : ItemRow) : Prop :=
  forall c, cover_art r = Some c ->
            c = "" \/ fileutil_exists w (platform_filename w c) = false.

Definition icon_cache_unusable (w : World) (r : ItemRow) : Prop :=
  forall i, raw_icon_cache_filename r = Some i ->
            fileutil_exists w (platform_filename w i) = false.

Definition screenshot_unusable (w : World) (r : ItemRow) : Prop :=
  forall s, screenshot r = Some s ->
            s = "" \/ fileutil_exists w (U s) = false.

Definition row_cover_missing_icon_present : ItemRow :=
  with_cover_art (Some "/home/u/.miro/cover-art/42")
    (with_raw_icon_cache_filename (Some "/home/u/.miro/icon-cache/42.png")
       (with_screenshot (Some "/home/u/.miro/shots/42.png")
          (with_id (Some 42) null_row))).

Definition row_screenshot_missing : ItemRow :=
  with_screenshot (Some "/home/u/.miro/shots/7.png")
    (with_id (Some 7) null_row).

Example thumbnail_icon_cache :
  thumbnail example_world row_cover_missing_icon_present
  = Some (B "/home/u/.miro/icon-cache/42.png").
Proof. reflexivity. Qed.

Example thumbnail_audio_default :
  thumbnail example_world (with_file_type (Some "audio") null_row)
  = Some (B "/usr/share/miro/resources/images/thumb-default-audio.png").
Proof. reflexivity. Qed.

Example thumbnail_folder_default :
  thumbnail example_world
            (with_is_container_item (Some true)
               (with_file_type (Some "audio") null_row))
  = Some (B "/usr/share/miro/resources/images/thumb-default-folder.png").
Proof. reflexivity. Qed.

Lemma truthy_text_false (v : option string) :
  truthy_text v = false <-> v = None \/ v = Some "".
Proof.
  destruct v as [s|]; simpl.
  - rewrite negb_false_iff, String.eqb_eq. split.
    + intros ->. now right.
    + intros [H|H]; [discriminate|now inversion H].
  - split; [now left|reflexivity].
Qed.

Lemma cover_art_unusable_false (w : World) (r : ItemRow) :
  cover_art_unusable w r ->
  truthy_text (cover_art r) && exists_opt w (cover_art_filename w r) = false.
Proof.
  unfold cover_art_unusable, cover_art_filename. intros H.
  destruct (cover_art r) as [c|]; [|reflexivity].
  rewrite unicode_to_filename_Some. cbn [exists_opt truthy_text].
  destruct (H c eq_refl) as [-> | ->]; [reflexivity|apply andb_false_r].
Qed.

Lemma icon_cache_unusable_false (w : World) (r : ItemRow) :
  icon_cache_unusable w r ->
  negb (is_None (raw_icon_cache_filename r))
  && exists_opt w (icon_cache_filename w r) = false.
Proof.
  unfold icon_cache_unusable, icon_cache_filename. intros H.
  destruct (raw_icon_cache_filename r) as [i|]; [|reflexivity].
  rewrite unicode_to_filename_Some. cbn [exists_opt is_None negb andb].
  exact (H i eq_refl).
Qed.

Lemma screenshot_unusable_false (w : World) (r : ItemRow) :
  screenshot_unusable w r ->
  truthy_text (screenshot r) && exists_opt w (option_map U (screenshot r))
  = false.
Proof.
  unfold screenshot_unusable. intros H.
  destruct (screenshot r) as [s|]; [|reflexivity].
  cbn [option_map exists_opt truthy_text].
  destruct (H s eq_refl) as [-> | ->]; [reflexivity|apply andb_false_r].
Qed.

Lemma nonempty_eqb (s : string) : s <> "" -> negb (s =? "")%string = true.
Proof.
  intros H. apply negb_true_iff. now apply String.eqb_neq.
Qed.

(** C5, as the code has it.  [thumbnail] is the first of: the cover-art
    file when the column is non-empty and the file is on disk; the
    icon-cache file when the column is set and the file is on disk; the
    screenshot when the column is non-empty and that file is on disk; and
    then the stock image: folder for a container item, audio for
    [file_type = "audio"], video otherwise. *)
Theorem thumbnail_fallback_chain (w : World) (r : ItemRow) :
  (forall c, cover_art r = Some c -> c <> "" ->
             fileutil_exists w (platform_filename w c) = true ->
             thumbnail w r = Some (platform_filename w c))
  /\ (cover_art_unusable w r ->
      forall i, raw_icon_cache_filename r = Some i ->
                fileutil_exists w (platform_filename w i) = true ->
                thumbnail w r = Some (platform_filename w i))
  /\ (cover_art_unusable w r -> icon_cache_unusable w r ->
      forall s, screenshot r = Some s -> s <> "" ->
                fileutil_exists w (U s) = true ->
                thumbnail w r = Some (U s))
  /\ (cover_art_unusable w r -> icon_cache_unusable w r ->
      screenshot_unusable w r ->
      (truthy (is_container_item r) = true ->
       thumbnail w r
       = Some (resources_path w "images/thumb-default-folder.png"))
      /\ (truthy (is_container_item r) = false ->
          file_type r = Some "audio" ->
          thumbnail w r
          = Some (resources_path w "images/thumb-default-audio.png"))
      /\ (truthy (is_container_item r) = false ->
          file_type r <> Some "audio" ->
          thumbnail w r
          = Some (resources_path w "images/thumb-default-video.png"))).
Proof.
  split; [|split; [|split]].
  - intros c Hc Hne Hex. unfold thumbnail, cover_art_filename.
    rewrite Hc, unicode_to_filename_Some. cbn [truthy_text exists_opt].
    now rewrite (nonempty_eqb c Hne), Hex.
  - intros Hcov i Hi Hex. unfold thumbnail.
    rewrite (cover_art_unusable_false w r Hcov).
    unfold icon_cache_filename. rewrite Hi, unicode_to_filename_Some.
    cbn [is_None negb exists_opt andb]. now rewrite Hex.
  - intros Hcov Hicon s Hs Hne Hex. unfold thumbnail.
    rewrite (cover_art_unusable_false w r Hcov).
    rewrite (icon_cache_unusable_false w r Hicon).
    rewrite Hs. cbn [truthy_text option_map exists_opt].
    now rewrite (nonempty_eqb s Hne), Hex.
  - intros Hcov Hicon Hshot. unfold thumbnail.
    rewrite (cover_art_unusable_false w r Hcov).
    rewrite (icon_cache_unusable_false w r Hicon).
    rewrite (screenshot_unusable_false w r Hshot).
    unfold thumbnail_default. split; [|split].
    + intros ->. reflexivity.
    + intros -> Hft. apply text_eq_true in Hft. now rewrite Hft.
    + intros -> Hft. apply text_eq_false in Hft. now rewrite Hft.
Qed.

Lemma thumbnail_fallback_chain_witness :
  cover_art row_cover_missing_icon_present
  = Some "/home/u/.miro/cover-art/42"
  /\ fileutil_exists example_world (B "/home/u/.miro/cover-art/42") = false
  /\ thumbnail example_world row_cover_missing_icon_present
     = Some (B "/home/u/.miro/icon-cache/42.png").
Proof.
  split; [reflexivity|]. split; [reflexivity|].
  destruct (thumbnail_fallback_chain example_world
              row_cover_missing_icon_present) as (_ & H & _).
  apply (H : cover_art_unusable _ _ -> _).
  - intros c Hc. right.
    change (Some "/home/u/.miro/cover-art/42" = Some c) in Hc.
    injection Hc as <-. reflexivity.
  - reflexivity.
  - reflexivity.
Defined.

(** The chain of the specification and the code part ways on a screenshot
    whose file is gone: the specification returns the recorded path, the
    code moves on to the stock image. *)
Lemma thumbnail_screenshot_is_checked :
  screenshot row_screenshot_missing = Some "/home/u/.miro/shots/7.png"
  /\ fileutil_exists example_world (U "/home/u/.miro/shots/7.png") = false
  /\ thumbnail_as_specified example_world row_screenshot_missing
     = Some (U "/home/u/.miro/shots/7.png")
  /\ thumbnail example_world row_screenshot_missing
     = Some (B "/usr/share/miro/resources/images/thumb-default-video.png")
  /\ thumbnail example_world row_screenshot_missing
     <> thumbnail_as_specified example_world row_screenshot_missing.
Proof.
  repeat split; try reflexivity. discriminate.
Qed.

(** ** Download progress and upload ratio *)

Definition transfer_row (done total : option Z) : ItemRow :=
  with_downloader_state (Some "downloading")
    (with_downloaded_size done (with_downloader_size total null_row)).

Example download_progress_quarter :
  download_progress (transfer_row (Some 50) (Some 200))
  = Ok (Some ((50 # 1) / (200 # 1))%Q).
Proof. reflexivity. Qed.

Example download_progress_not_started :
  download_progress (transfer_row (Some 0) (Some 200)) = Ok (Some 0%Q).
Proof. reflexivity. Qed.

Example download_progress_unknown_total :
  download_progress (transfer_row (Some 50) None) = Ok None.
Proof. reflexivity. Qed.

Example download_progress_zero_total :
  download_progress (transfer_row (Some 50) (Some 0))
  = Raise ZeroDivisionError.
Proof. reflexivity. Qed.

(** The first test of [download_progress] wins over the second: with
    nothing downloaded yet the progress is 0.0 even when the total size is
    unknown. *)
Lemma download_progress_unknown_total_is_zero :
  downloader_size (transfer_row None None) = None
  /\ download_progress (transfer_row None None) = Ok (Some 0%Q)
  /\ download_progress (transfer_row None None) <> Ok None
  /\ downloader_size (transfer_row (Some 0) None) = None
  /\ download_progress (transfer_row (Some 0) None) = Ok (Some 0%Q).
Proof.
  repeat split; try reflexivity. discriminate.
Qed.

(** C2, as the code has it.  [download_progress] is 0.0 when the downloaded
    size is [None] or 0, whatever the total size; otherwise it is [None]
    when the total size is [None]; otherwise, for a total other than 0, it
    is downloaded / total, which lies in [0.0, 1.0] when
    0 < downloaded <= total. *)
Theorem download_progress_cases (r : ItemRow) :
  (downloaded_size r = None \/ downloaded_size r = Some 0 ->
   download_progress r = Ok (Some 0%Q))
  /\ (forall d, downloaded_size r = Some d -> d <> 0 ->
                downloader_size r = None ->
                download_progress r = Ok None)
  /\ (forall d t, downloaded_size r = Some d -> d <> 0 ->
                  downloader_size r = Some t -> t <> 0 ->
                  download_progress r
                  = Ok (Some (inject_Z d / inject_Z t)%Q)
                  /\ (0 < d -> d <= t ->
                      (0 <= inject_Z d / inject_Z t <= 1)%Q)).
Proof.
  unfold download_progress. split; [|split].
  - intros [H | H]; rewrite H; reflexivity.
  - intros d Hd Hne Ht. rewrite Hd, Ht. cbn [in_0_None is_None orb].
    apply Z.eqb_neq in Hne. now rewrite Hne.
  - intros d t Hd Hne Ht Htne. rewrite Hd, Ht.
    cbn [in_0_None is_None orb py_float float_div bind].
    apply Z.eqb_neq in Hne. apply Z.eqb_neq in Htne.
    rewrite Hne, Htne. split; [reflexivity|].
    apply float_ratio_bounds.
Qed.

Lemma download_progress_cases_witness :
  downloaded_size (transfer_row (Some 50) (Some 200)) = Some 50
  /\ downloader_size (transfer_row (Some 50) (Some 200)) = Some 200
  /\ download_progress (transfer_row (Some 50) (Some 200))
     = Ok (Some (inject_Z 50 / inject_Z 200)%Q)
  /\ (0 <= inject_Z 50 / inject_Z 200 <= 1)%Q.
Proof.
  split; [reflexivity|]. split; [reflexivity|].
  destruct (download_progress_cases (transfer_row (Some 50) (Some 200)))
    as (_ & _ & H).
  destruct (H 50 200 eq_refl ltac:(discriminate) eq_refl ltac:(discriminate))
    as [Heq Hbound].
  split; [exact Heq|].
  apply Hbound; [reflexivity|discriminate].
Defined.

(** A total of 0 with something downloaded: the division raises. *)
Lemma download_progress_zero_division (r : ItemRow) (d : Z) :
  downloaded_size r = Some d -> d <> 0 -> downloader_size r = Some 0 ->
  download_progress r = Raise ZeroDivisionError.
Proof.
  intros Hd Hne Ht. unfold download_progress. rewrite Hd, Ht.
  cbn [in_0_None is_None orb py_float float_div bind].
  apply Z.eqb_neq in Hne. now rewrite Hne.
Qed.

(** ** Expiration date *)

Definition three_days : timedelta := 3 * us_per_day.

(** The watched row of a feed whose policy is "feed" and whose own expire
    time is three days. *)
Definition feed_policy_row : ItemRow :=
  with_feed_expire_time (Some three_days) (watched_row (Some "feed")).

(** A row of a feed with a policy the module does not know, not watched
    yet. *)
Definition unwatched_row : ItemRow :=
  with_watched_time None (watched_row (Some "weekly")).

Example expiration_date_system :
  expiration_date example_world (watched_row (Some "system"))
  = Ok (Some (new_year_2012 + 6 * us_per_day)).
Proof. reflexivity. Qed.

Example expiration_date_never :
  expiration_date example_world (watched_row (Some "never")) = Ok None.
Proof. reflexivity. Qed.

Example expiration_date_kept :
  expiration_date example_world
                  (with_keep (Some true) (watched_row (Some "system")))
  = Ok None.
Proof. reflexivity. Qed.

Example expiration_date_no_feed :
  expiration_date example_world (watched_row None)
  = Raise (AssertionError "Unknown expire value: None").
Proof. reflexivity. Qed.

Lemma load_global_feed_expire_time :
  load_global "feed_expire_time" = Raise (NameError "feed_expire_time").
Proof. reflexivity. Qed.

(** The guard: nothing expires that was not watched, has no file or is
    kept. *)
Lemma expiration_date_guard (w : World) (r : ItemRow) :
  watched_time r = None \/ raw_filename r = None \/ truthy (keep r) = true ->
  expiration_date w r = Ok None.
Proof.
  unfold expiration_date, has_filename.
  intros [H | [H | H]]; rewrite H.
  - reflexivity.
  - destruct (watched_time r); reflexivity.
  - destruct (watched_time r); [|reflexivity].
    now rewrite orb_true_r.
Qed.

Section PastTheGuard.

Variables (w : World) (r : ItemRow) (watched : datetime) (name : string).
Hypothesis Hwatched : watched_time r = Some watched.
Hypothesis Hfile : raw_filename r = Some name.
Hypothesis Hkeep : truthy (keep r) = false.

Lemma expiration_date_past_guard :
  expiration_date w r
  = if text_eq (feed_expire r) "never" then Ok None
    else if text_eq (feed_expire r) "feed" then
      expire_time <- load_global "feed_expire_time" ;;
      d <- datetime_add_global watched expire_time ;;
      Ok (Some d)
    else if text_eq (feed_expire r) "system" then
      if config_expire_after_x_days w <=? 0 then Ok None
      else
        expire_time <- timedelta_of_days (config_expire_after_x_days w) ;;
        d <- datetime_add watched expire_time ;;
        Ok (Some d)
    else
      Raise (AssertionError
               ("Unknown expire value: " ++ format_text (feed_expire r))).
Proof.
  unfold expiration_date, has_filename.
  rewrite Hwatched, Hfile, Hkeep. reflexivity.
Qed.

Lemma expiration_date_policy_never :
  feed_expire r = Some "never" -> expiration_date w r = Ok None.
Proof.
  intros H. rewrite expiration_date_past_guard, H. reflexivity.
Qed.

Lemma expiration_date_policy_system_off :
  feed_expire r = Some "system" -> config_expire_after_x_days w <= 0 ->
  expiration_date w r = Ok None.
Proof.
  intros H Hdays. rewrite expiration_date_past_guard, H.
  cbn [text_eq String.eqb Ascii.eqb Bool.eqb].
  apply Z.leb_le in Hdays. now rewrite Hdays.
Qed.

(** With a positive day count the item expires that many days after it
    was watched, as long as the date stays within year 9999. *)
Lemma expiration_date_policy_system :
  feed_expire r = Some "system" ->
  0 < config_expire_after_x_days w <= 999999999 ->
  0 <= watched ->
  watched + config_expire_after_x_days w * us_per_day < datetime_end ->
  expiration_date w r
  = Ok (Some (watched + config_expire_after_x_days w * us_per_day)).
Proof.
  intros H Hdays Hw Hend. rewrite expiration_date_past_guard, H.
  cbn [text_eq String.eqb Ascii.eqb Bool.eqb].
  destruct (Z.leb_spec (config_expire_after_x_days w) 0); [lia|].
  unfold timedelta_of_days, datetime_add.
  destruct (Z.leb_spec (Z.abs (config_expire_after_x_days w)) 999999999);
    [|lia].
  cbn [bind].
  assert (Hpos : 0 <= config_expire_after_x_days w * us_per_day)
    by (unfold us_per_day; lia).
  destruct (Z.leb_spec 0
              (watched + config_expire_after_x_days w * us_per_day));
    [|lia].
  destruct (Z.ltb_spec
              (watched + config_expire_after_x_days w * us_per_day)
              datetime_end); [|lia].
  reflexivity.
Qed.

Lemma expiration_date_policy_feed :
  feed_expire r = Some "feed" ->
  expiration_date w r = Raise (NameError "feed_expire_time").
Proof.
  intros H. rewrite expiration_date_past_guard, H. reflexivity.
Qed.

Lemma expiration_date_policy_unknown (policy : string) :
  feed_expire r = Some policy ->
  policy <> "never" -> policy <> "feed" -> policy <> "system" ->
  expiration_date w r
  = Raise (AssertionError ("Unknown expire value: " ++ policy)).
Proof.
  intros H Hn Hf Hs. rewrite expiration_date_past_guard, H.
  cbn [text_eq format_text].
  apply String.eqb_neq in Hn, Hf, Hs. now rewrite Hn, Hf, Hs.
Qed.

End PastTheGuard.

(** C1, the "feed" policy.  Past the guard, a row whose feed expires items
    by the feed's own setting has no expiration date: the branch reads the
    name [feed_expire_time], which is bound neither in the property nor in
    the module, instead of the row's [feed_expire_time] column, and the
    property raises [NameError]. *)
Theorem expiration_date_feed_policy_raises
    (w : World) (r : ItemRow) (watched : datetime) (name : string) :
  watched_time r = Some watched -> raw_filename r = Some name ->
  truthy (keep r) = false -> feed_expire r = Some "feed" ->
  expiration_date w r = Raise (NameError "feed_expire_time").
Proof.
  intros Hw Hf Hk Hp.
  exact (expiration_date_policy_feed w r watched name Hw Hf Hk Hp).
Qed.

Lemma expiration_date_feed_policy_raises_witness :
  watched_time feed_policy_row = Some new_year_2012
  /\ feed_expire_time feed_policy_row = Some three_days
  /\ expiration_date example_world feed_policy_row
     = Raise (NameError "feed_expire_time").
Proof.
  split; [reflexivity|]. split; [reflexivity|].
  exact (expiration_date_feed_policy_raises example_world feed_policy_row
           new_year_2012 "/home/u/Videos/talk.ogv"
           eq_refl eq_refl eq_refl eq_refl).
Defined.

(** An unknown policy goes unnoticed as long as the guard returns first:
    the row below has the policy "weekly" and was not watched. *)
Lemma expiration_date_unknown_policy_unwatched :
  feed_expire unwatched_row = Some "weekly"
  /\ expiration_date example_world unwatched_row = Ok None
  /\ ~ raises (expiration_date example_world unwatched_row).
Proof.
  split; [reflexivity|]. split; [reflexivity|].
  intros [e H]. discriminate H.
Qed.

(** C8, as the code has it.  For a row that was watched, has a file and is
    not kept, a [feed_expire] value other than "never", "feed" and "system"
    makes [expiration_date] raise [AssertionError] with the value in its
    message. *)
Theorem expiration_date_unknown_policy_raises
    (w : World) (r : ItemRow) (watched : datetime) (name policy : string) :
  watched_time r = Some watched -> raw_filename r = Some name ->
  truthy (keep r) = false -> feed_expire r = Some policy ->
  policy <> "never" -> policy <> "feed" -> policy <> "system" ->
  expiration_date w r
  = Raise (AssertionError ("Unknown expire value: " ++ policy))
  /\ raises (expiration_date w r).
Proof.
  intros Hw Hf Hk Hp Hn Hfd Hs.
  pose proof (expiration_date_policy_unknown w r watched name Hw Hf Hk
                policy Hp Hn Hfd Hs) as H.
  split; [exact H|]. eexists. exact H.
Qed.

Lemma expiration_date_unknown_policy_raises_witness :
  feed_expire (watched_row (Some "weekly")) = Some "weekly"
  /\ expiration_date example_world (watched_row (Some "weekly"))
     = Raise (AssertionError "Unknown expire value: weekly").
Proof.
  split; [reflexivity|].
  refine (proj1 (expiration_date_unknown_policy_raises example_world
                   (watched_row (Some "weekly")) new_year_2012
                   "/home/u/Videos/talk.ogv" "weekly"
                   eq_refl eq_refl eq_refl eq_refl _ _ _)); discriminate.
Defined.

(** ** Rows without a downloader *)

(** The left join found no [remote_downloader] row: the reference to it and
    every column of that table are [None]. *)
Definition no_downloader (r : ItemRow) : Prop :=
  downloader_id r = None
  /\ downloader_content_type r = None
  /\ downloader_state r = None
  /\ reason_failed r = None
  /\ short_reason_failed r = None
  /\ downloader_type r = None
  /\ retry_time r = None
  /\ eta r = None
  /\ rate r = None
  /\ upload_rate r = None
  /\ downloaded_size r = None
  /\ downloader_size r = None
  /\ upload_size r = None
  /\ startup_activity r = None
  /\ seeders r = None
  /\ leechers r = None
  /\ connections r = None.

Lemma no_downloader_example : no_downloader row_without_downloader.
Proof. repeat split. Qed.

(** The flags and sizes read from the downloader columns are false or
    [None] on such a row; [download_progress] is 0.0. *)
Lemma downloader_flags_without_downloader (r : ItemRow) :
  no_downloader r ->
  is_download r = false /\ is_paused r = false /\ is_seeding r = false
  /\ is_failed_download r = false /\ is_torrent r = false
  /\ is_torrent_folder r = Some false
  /\ download_progress r = Ok (Some 0%Q).
Proof.
  intros H.
  assert (Hst : downloader_state r = None) by (unfold no_downloader in H; tauto).
  assert (Hty : downloader_type r = None) by (unfold no_downloader in H; tauto).
  assert (Hdone : downloaded_size r = None)
    by (unfold no_downloader in H; tauto).
  unfold is_download, is_paused, is_seeding, is_failed_download,
    is_torrent_folder, is_torrent, download_progress.
  rewrite Hst, Hty, Hdone. repeat split.
Qed.

(** [has_shareable_url] on a row without URL: the comparison with [u''] is
    true and [None] has no [startswith]. *)
Lemma has_shareable_url_None (r : ItemRow) :
  url r = None -> has_shareable_url r = Raise AttributeError.
Proof.
  unfold has_shareable_url. now intros ->.
Qed.

(** C3, the upload ratio.  On a row without downloader, [upload_ratio]
    raises [TypeError]: [float(None)] has no value.  The property has no
    test for [None], unlike [download_progress] next to it. *)
Theorem upload_ratio_without_downloader (r : ItemRow) :
  no_downloader r -> upload_ratio r = Raise TypeError.
Proof.
  intros H.
  assert (Hup : upload_size r = None) by (unfold no_downloader in H; tauto).
  unfold upload_ratio. now rewrite Hup.
Qed.

Lemma upload_ratio_without_downloader_witness :
  no_downloader row_without_downloader
  /\ upload_ratio row_without_downloader = Raise TypeError.
Proof.
  split; [repeat split|].
  apply (upload_ratio_without_downloader row_without_downloader).
  repeat split.
Defined.

(** * Further properties of the module *)

(** ** The registry and the join *)

(** No string of [l] occurs twice. *)
Fixpoint distinct (l : list string) : bool :=
  match l with
  | [] => true
  | x :: l' => negb (existsb (String.eqb x) l') && distinct l'
  end.

(** [sql] left-joins table [t] to [item] on the table's [id]. *)
Definition joined_in (sql t : string) : bool :=
  match index 0 ("LEFT JOIN " ++ t ++ " ON " ++ t ++ ".id=item.") sql with
  | Some _ => true
  | None => false
  end.

Lemma distinct_NoDup (l : list string) : distinct l = true -> NoDup l.
Proof.
  induction l as [|x l IH]; simpl; intros H; constructor.
  - apply andb_true_iff in H. destruct H as [H _].
    apply negb_true_iff in H. intros Hin.
    assert (existsb (String.eqb x) l = true) as E.
    { apply existsb_exists. exists x. split; [assumption|].
      apply String.eqb_refl. }
    congruence.
  - apply IH. apply andb_true_iff in H. tauto.
Qed.

(** The registry has 77 columns; the attribute names, which become the
    fields of [ItemRow], are pairwise different, as [namedtuple] requires;
    and every column comes from [item] or from a table that [join_sql]
    joins to it, so the SELECT of [fetch_item_infos] names no table it does
    not bring in. *)
Theorem column_info_well_formed :
  List.length column_info = 77%nat
  /\ NoDup (map attr_name column_info)
  /\ Forall (fun c => table c = "item"
                      \/ joined_in join_sql (table c) = true)
            column_info.
Proof.
  split; [reflexivity|]. split.
  - apply distinct_NoDup. vm_compute. reflexivity.
  - unfold column_info, _column_info.
    repeat (constructor; [first [left; reflexivity | right; reflexivity]|]).
    constructor.
Qed.

(** ** Files and flags *)

(** A row has a filename exactly when the raw column is set, on either kind
    of platform; playable rows and rows that can be saved have one. *)
Theorem filename_iff_has_filename (w : World) (r : ItemRow) :
  (filename w r = None <-> has_filename r = false)
  /\ (is_playable r = true -> exists f, filename w r = Some f)
  /\ (can_be_saved r = true ->
      (exists f, filename w r = Some f) /\ truthy (keep r) = false).
Proof.
  unfold filename, _unicode_to_filename, is_playable, can_be_saved,
    has_filename.
  destruct (raw_filename r) as [s|]; cbn [is_None negb andb].
  - split; [|split].
    + destruct (negb (filename_type_is_unicode w)); split; discriminate.
    + intros _. destruct (negb (filename_type_is_unicode w)); eexists;
        reflexivity.
    + intros H. apply negb_true_iff in H. split; [|assumption].
      destruct (negb (filename_type_is_unicode w)); eexists; reflexivity.
  - split; [|split]; try discriminate. split; reflexivity.
Qed.

Lemma filename_iff_has_filename_witness :
  is_playable (watched_row None) = true
  /\ (exists f, filename example_world (watched_row None) = Some f).
Proof.
  split; [reflexivity|].
  exact (proj1 (proj2 (filename_iff_has_filename example_world
                         (watched_row None))) eq_refl).
Defined.

(** ** Thumbnail *)

Lemma exists_opt_true (w : World) (o : option PyStr) :
  exists_opt w o = true -> exists p, o = Some p /\ fileutil_exists w p = true.
Proof.
  destruct o as [p|]; simpl; intros H; [|discriminate].
  exists p. now split.
Qed.

(** [thumbnail] always names an image: a path that [fileutil.exists] found
    on disk, or else the stock image of the row. *)
Theorem thumbnail_exists_or_default (w : World) (r : ItemRow) :
  exists p, thumbnail w r = Some p
            /\ (fileutil_exists w p = true \/ p = thumbnail_default w r).
Proof.
  unfold thumbnail.
  destruct (truthy_text (cover_art r)
            && exists_opt w (cover_art_filename w r)) eqn:E1.
  { apply andb_true_iff in E1. destruct E1 as [_ E1].
    destruct (exists_opt_true w _ E1) as [p [-> Hp]]. exists p. auto. }
  destruct (negb (is_None (raw_icon_cache_filename r))
            && exists_opt w (icon_cache_filename w r)) eqn:E2.
  { apply andb_true_iff in E2. destruct E2 as [_ E2].
    destruct (exists_opt_true w _ E2) as [p [-> Hp]]. exists p. auto. }
  destruct (truthy_text (screenshot r)
            && exists_opt w (option_map U (screenshot r))) eqn:E3.
  { apply andb_true_iff in E3. destruct E3 as [_ E3].
    destruct (exists_opt_true w _ E3) as [p [-> Hp]]. exists p. auto. }
  eexists. split; [reflexivity|]. now right.
Qed.

(** ** Size *)

(** [size] lets no [OSError] out, and raises only what
    [os.path.getsize] raised for the row's file; a row without a file never
    raises. *)
Theorem size_raises_only_from_getsize (w : World) (r : ItemRow) (e : PyExc) :
  size w r = Raise e ->
  e <> OSError
  /\ exists f, filename w r = Some f /\ os_path_getsize w f = Raise e.
Proof.
  unfold size, filename, has_filename.
  destruct (raw_filename r) as [name|]; cbn [is_None negb].
  - rewrite unicode_to_filename_Some.
    destruct (os_path_getsize w (platform_filename w name)) as [n|e'] eqn:E.
    + discriminate.
    + destruct e'; intros H; inversion H; subst;
        (split; [discriminate|eexists; split; [reflexivity|assumption]]).
  - destruct (is_download r); discriminate.
Qed.

(** A world in which looking at a file is refused for a reason other than
    [OSError]. *)
Definition refusing_world : World := {|
  filename_type_is_unicode := true;
  fileutil_exists := fun _ => false;
  os_path_getsize := fun _ => Raise TypeError;
  resources_path := fun rel => U rel;
  config_expire_after_x_days := 0;
  db_rows := []
|}.

Lemma size_raises_only_from_getsize_witness :
  size refusing_world (watched_row None) = Raise TypeError
  /\ os_path_getsize refusing_world (U "/home/u/Videos/talk.ogv")
     = Raise TypeError.
Proof.
  split; [reflexivity|].
  destruct (size_raises_only_from_getsize refusing_world (watched_row None)
              TypeError eq_refl) as [_ [f [Hf Hg]]].
  injection Hf as <-. exact Hg.
Defined.

(** ** Expiration date *)

(** When [expiration_date] gives a date, the row was watched, has a file
    and is not kept, its feed follows the system policy, the configured
    number of days is positive, and the date lies exactly that many days
    after the row was watched. *)
Theorem expiration_date_Some_inv (w : World) (r : ItemRow) (d : datetime) :
  expiration_date w r = Ok (Some d) ->
  exists watched,
    watched_time r = Some watched
    /\ can_be_saved r = true
    /\ feed_expire r = Some "system"
    /\ 0 < config_expire_after_x_days w
    /\ d = watched + config_expire_after_x_days w * us_per_day
    /\ watched < d.
Proof.
  unfold expiration_date, can_be_saved.
  destruct (watched_time r) as [watched|]; [|discriminate].
  destruct (has_filename r); cbn [negb orb andb]; [|discriminate].
  destruct (truthy (keep r)); [discriminate|]. cbn [negb].
  destruct (text_eq (feed_expire r) "never"); [discriminate|].
  destruct (text_eq (feed_expire r) "feed"); [discriminate|].
  destruct (text_eq (feed_expire r) "system") eqn:Esys; [|discriminate].
  apply text_eq_true in Esys.
  destruct (Z.leb_spec (config_expire_after_x_days w) 0) as [|Hdays];
    [discriminate|].
  unfold timedelta_of_days, datetime_add.
  destruct (Z.abs (config_expire_after_x_days w) <=? 999999999);
    [|discriminate].
  cbn [bind].
  destruct ((0 <=? watched + config_expire_after_x_days w * us_per_day)
            && (watched + config_expire_after_x_days w * us_per_day
                <? datetime_end)); [|discriminate].
  cbn [bind]. intros H. injection H as <-.
  exists watched. repeat split; try assumption.
  unfold us_per_day. lia.
Qed.

Lemma expiration_date_Some_inv_witness :
  expiration_date example_world (watched_row (Some "system"))
  = Ok (Some (new_year_2012 + 6 * us_per_day))
  /\ exists watched,
       watched_time (watched_row (Some "system")) = Some watched
       /\ watched < new_year_2012 + 6 * us_per_day.
Proof.
  split; [reflexivity|].
  destruct (expiration_date_Some_inv example_world
              (watched_row (Some "system"))
              (new_year_2012 + 6 * us_per_day) eq_refl)
    as (watched & Hw & _ & _ & _ & _ & Hlt).
  exists watched. now split.
Defined.

(** The exceptions of [expiration_date]: all of them come after the guard,
    and each belongs to one policy -- [NameError] to "feed",
    [OverflowError] to "system" with a positive day count, and
    [AssertionError] to a policy that is none of the three, a missing one
    included. *)
Theorem expiration_date_raises_inv (w : World) (r : ItemRow) (e : PyExc) :
  expiration_date w r = Raise e ->
  watched_time r <> None /\ can_be_saved r = true
  /\ ((e = NameError "feed_expire_time" /\ feed_expire r = Some "feed")
      \/ (e = OverflowError /\ feed_expire r = Some "system"
          /\ 0 < config_expire_after_x_days w)
      \/ (e = AssertionError
                ("Unknown expire value: " ++ format_text (feed_expire r))
          /\ feed_expire r <> Some "never" /\ feed_expire r <> Some "feed"
          /\ feed_expire r <> Some "system")).
Proof.
  unfold expiration_date, can_be_saved.
  destruct (watched_time r) as [watched|]; [|discriminate].
  destruct (has_filename r); cbn [negb orb andb]; [|discriminate].
  destruct (truthy (keep r)); [discriminate|]. cbn [negb].
  destruct (text_eq (feed_expire r) "never") eqn:En; [discriminate|].
  destruct (text_eq (feed_expire r) "feed") eqn:Ef.
  { cbn. intros H. injection H as <-. apply text_eq_true in Ef.
    split; [discriminate|]. split; [reflexivity|]. left. now split. }
  destruct (text_eq (feed_expire r) "system") eqn:Es.
  { apply text_eq_true in Es.
    destruct (Z.leb_spec (config_expire_after_x_days w) 0) as [|Hdays];
      [discriminate|].
    unfold timedelta_of_days, datetime_add.
    destruct (Z.abs (config_expire_after_x_days w) <=? 999999999);
      cbn [bind].
    - destruct ((0 <=? watched + config_expire_after_x_days w * us_per_day)
                && (watched + config_expire_after_x_days w * us_per_day
                    <? datetime_end)); cbn [bind]; [discriminate|].
      intros H. injection H as <-.
      split; [discriminate|]. split; [reflexivity|]. right. left. auto.
    - intros H. injection H as <-.
      split; [discriminate|]. split; [reflexivity|]. right. left. auto. }
  intros H. injection H as <-.
  apply text_eq_false in En, Ef, Es.
  split; [discriminate|]. split; [reflexivity|]. right. right. auto.
Qed.

Lemma expiration_date_raises_inv_witness :
  expiration_date example_world (watched_row None)
  = Raise (AssertionError "Unknown expire value: None")
  /\ can_be_saved (watched_row None) = true.
Proof.
  split; [reflexivity|].
  exact (proj1 (proj2 (expiration_date_raises_inv example_world
                         (watched_row None)
                         (AssertionError "Unknown expire value: None")
                         eq_refl))).
Defined.

(** ** Automatic rating *)

Lemma Ok_Some_inj {A : Type} (a b : A) :
  @Ok (option A) (Some a) = Ok (Some b) -> a = b.
Proof. congruence. Qed.

Lemma auto_rating_cases (r : ItemRow) :
  auto_rating r
  = match play_count r, skip_count r with
    | Some p, Some s =>
        if 0 <? p then
          if 0 <? s then
            Ok (Some (Z.min 5 (Z.max 1 (Z.quot (2 * p - 3 * s) 2))))
          else Ok (Some (Z.min 5 (2 * p)))
        else if 0 <? s then Ok (Some 1) else Ok None
    | Some p, None =>
        if 0 <? p then Ok (Some (Z.min 5 (2 * p))) else Ok None
    | None, Some s => if 0 <? s then Ok (Some 1) else Ok None
    | None, None => Ok None
    end.
Proof.
  unfold auto_rating, UNSKIPPED_FACTOR.
  destruct (play_count r) as [p|], (skip_count r) as [s|];
    cbn [gt0 int_operand bind]; try reflexivity.
  destruct (0 <? p); [|reflexivity].
  destruct (0 <? s); [|reflexivity].
  now rewrite py_int_skip.
Qed.

(** [auto_rating] never raises, whatever the columns hold -- [None] and
    negative counts included --, and a rating it gives lies between 1
    and 5. *)
Theorem auto_rating_total_in_range (r : ItemRow) :
  auto_rating r = Ok None
  \/ exists n, auto_rating r = Ok (Some n) /\ 1 <= n <= 5.
Proof.
  rewrite auto_rating_cases.
  destruct (play_count r) as [p|], (skip_count r) as [s|];
    try (destruct (Z.ltb_spec 0 p)); try (destruct (Z.ltb_spec 0 s));
    try (now left); right; eexists; (split; [reflexivity|lia]).
Qed.

(** The comment on [UNSKIPPED_FACTOR]: without skips the rating reaches 5
    exactly from the third play on. *)
Theorem auto_rating_unskipped_five (r : ItemRow) (p : Z) :
  play_count r = Some p -> skip_count r = Some 0 ->
  (auto_rating r = Ok (Some 5) <-> 3 <= p).
Proof.
  intros Hp Hs. rewrite auto_rating_cases, Hp, Hs.
  change (0 <? 0) with false. cbv iota.
  destruct (Z.ltb_spec 0 p) as [Hpos | Hneg]; split; intros H;
    try discriminate; try lia.
  - assert (Z.min 5 (2 * p) = 5) by congruence. lia.
  - do 2 f_equal. lia.
Qed.

Lemma auto_rating_unskipped_five_witness :
  auto_rating (counted_row 3 0) = Ok (Some 5)
  /\ auto_rating (counted_row 2 0) <> Ok (Some 5).
Proof.
  split.
  - apply (proj2 (auto_rating_unskipped_five (counted_row 3 0) 3
                    eq_refl eq_refl)). discriminate.
  - intros H.
    apply (proj1 (auto_rating_unskipped_five (counted_row 2 0) 2
                    eq_refl eq_refl)) in H.
    apply H. reflexivity.
Defined.

(** The comment on [SKIP_FACTOR]: a played item that was skipped at least
    40% of the times it came up is rated 1. *)
Theorem auto_rating_skipped_one (r : ItemRow) (p s : Z) :
  play_count r = Some p -> skip_count r = Some s ->
  0 < p -> 0 < s -> 2 * (p + s) <= 5 * s ->
  auto_rating r = Ok (Some 1).
Proof.
  intros Hp Hs Hp0 Hs0 Hshare. rewrite auto_rating_cases, Hp, Hs.
  destruct (Z.ltb_spec 0 p); [|lia]. destruct (Z.ltb_spec 0 s); [|lia].
  do 2 f_equal.
  assert (Z.quot (2 * p - 3 * s) 2 <= 0).
  { apply Z.quot_le_upper_bound; lia. }
  lia.
Qed.

Lemma auto_rating_skipped_one_witness :
  auto_rating (counted_row 3 2) = Ok (Some 1).
Proof.
  apply (auto_rating_skipped_one (counted_row 3 2) 3 2);
    first [reflexivity | discriminate].
Defined.

(** For an item that was played, one more play never lowers the rating and
    one more skip never raises it. *)
Theorem auto_rating_monotone (r r' : ItemRow) (p s p' s' n n' : Z) :
  play_count r = Some p -> skip_count r = Some s ->
  play_count r' = Some p' -> skip_count r' = Some s' ->
  0 < p <= p' -> 0 <= s' <= s ->
  auto_rating r = Ok (Some n) -> auto_rating r' = Ok (Some n') ->
  n <= n'.
Proof.
  intros Hp Hs Hp' Hs' Hpp Hss.
  rewrite !auto_rating_cases, Hp, Hs, Hp', Hs'.
  destruct (Z.ltb_spec 0 p); [|lia]. destruct (Z.ltb_spec 0 p'); [|lia].
  assert (Hq : Z.quot (2 * p - 3 * s) 2 <= Z.quot (2 * p' - 3 * s') 2)
    by (apply Z.quot_le_mono; lia).
  assert (Hq' : Z.quot (2 * p - 3 * s) 2 <= 2 * p')
    by (apply Z.quot_le_upper_bound; lia).
  destruct (Z.ltb_spec 0 s) as [Hs1 | Hs1];
    destruct (Z.ltb_spec 0 s') as [Hs2 | Hs2];
    intros E E'; apply Ok_Some_inj in E, E'; lia.
Qed.

Lemma auto_rating_monotone_witness :
  auto_rating (counted_row 6 2) = Ok (Some 3)
  /\ auto_rating (counted_row 7 1) = Ok (Some 5)
  /\ 3 <= 5.
Proof.
  split; [reflexivity|]. split; [reflexivity|].
  apply (auto_rating_monotone (counted_row 6 2) (counted_row 7 1)
           6 2 7 1 3 5); first [reflexivity | lia].
Defined.

(** ** Duration *)

(** [duration] is the number of whole seconds in [duration_ms]: it is the
    one integer [s] with [1000 s <= duration_ms < 1000 (s + 1)], also for a
    negative column, where [//] rounds down and not toward zero. *)
Theorem duration_whole_seconds (r : ItemRow) (ms : Z) :
  duration_ms r = Some ms ->
  exists s, duration r = Some s /\ 1000 * s <= ms < 1000 * (s + 1).
Proof.
  intros H. unfold duration. rewrite H. eexists. split; [reflexivity|].
  pose proof (Z.div_mod ms 1000 ltac:(discriminate)).
  pose proof (Z.mod_pos_bound ms 1000 ltac:(reflexivity)). lia.
Qed.

Lemma duration_whole_seconds_witness :
  exists s, duration (with_duration_ms (Some (-1)) null_row) = Some s
            /\ 1000 * s <= -1 < 1000 * (s + 1).
Proof.
  exact (duration_whole_seconds (with_duration_ms (Some (-1)) null_row) (-1)
           eq_refl).
Defined.

(** ** Transfer figures *)

(** What [upload_ratio] does on every row: it gives the quotient when both
    sizes are set and the downloaded size is not 0, raises
    [ZeroDivisionError] when the downloaded size is 0, and raises
    [TypeError] when either size is [None]. *)
Theorem upload_ratio_outcomes (r : ItemRow) :
  (forall u d, upload_size r = Some u -> downloaded_size r = Some d ->
               d <> 0 ->
               upload_ratio r = Ok (inject_Z u / inject_Z d)%Q)
  /\ (forall u, upload_size r = Some u -> downloaded_size r = Some 0 ->
                upload_ratio r = Raise ZeroDivisionError)
  /\ (upload_size r = None \/ downloaded_size r = None ->
      upload_ratio r = Raise TypeError).
Proof.
  unfold upload_ratio. split; [|split].
  - intros u d Hu Hd Hne. rewrite Hu, Hd. cbn [py_float bind float_div].
    apply Z.eqb_neq in Hne. now rewrite Hne.
  - intros u Hu Hd. rewrite Hu, Hd. reflexivity.
  - intros [H | H]; rewrite H; [reflexivity|].
    destruct (upload_size r); reflexivity.
Qed.

Definition seeding_row (uploaded done : option Z) : ItemRow :=
  with_downloader_state (Some "uploading")
    (with_upload_size uploaded (with_downloaded_size done null_row)).

Lemma upload_ratio_outcomes_witness :
  upload_ratio (seeding_row (Some 300) (Some 200))
  = Ok (inject_Z 300 / inject_Z 200)%Q
  /\ upload_ratio (seeding_row (Some 300) (Some 0)) = Raise ZeroDivisionError
  /\ upload_ratio (seeding_row (Some 300) None) = Raise TypeError.
Proof.
  split; [|split].
  - refine (proj1 (upload_ratio_outcomes (seeding_row (Some 300) (Some 200)))
              300 200 eq_refl eq_refl _). discriminate.
  - exact (proj1 (proj2 (upload_ratio_outcomes
                           (seeding_row (Some 300) (Some 0))))
             300 eq_refl eq_refl).
  - exact (proj2 (proj2 (upload_ratio_outcomes
                           (seeding_row (Some 300) None)))
             (or_intror eq_refl)).
Defined.

(** [download_progress] raises in one situation only: something was
    downloaded and the total size is 0; the exception is then
    [ZeroDivisionError].  It never fails on a [None]. *)
Theorem download_progress_raises_iff (r : ItemRow) (e : PyExc) :
  download_progress r = Raise e
  <-> e = ZeroDivisionError
      /\ downloader_size r = Some 0
      /\ exists d, downloaded_size r = Some d /\ d <> 0.
Proof.
  unfold download_progress.
  destruct (downloaded_size r) as [d|]; cbn [in_0_None is_None orb].
  - destruct (Z.eqb_spec d 0) as [-> | Hne].
    + split; [discriminate|]. intros (_ & _ & d & Hd & Hd0).
      injection Hd as <-. now contradiction Hd0.
    + destruct (downloader_size r) as [t|]; cbn [is_None py_float bind
                                                   float_div].
      * destruct (Z.eqb_spec t 0) as [-> | Htne]; cbn [bind].
        -- split.
           ++ intros H. injection H as <-. repeat split. now exists d.
           ++ intros (-> & _). reflexivity.
        -- split; [discriminate|]. intros (_ & Ht & _).
           injection Ht as ->. now contradiction Htne.
      * split; [discriminate|]. intros (_ & Ht & _). discriminate.
  - split; [discriminate|]. intros (_ & _ & d & Hd & _). discriminate.
Qed.

Lemma download_progress_raises_iff_witness :
  download_progress (transfer_row (Some 50) (Some 0))
  = Raise ZeroDivisionError.
Proof.
  apply (proj2 (download_progress_raises_iff
                  (transfer_row (Some 50) (Some 0)) ZeroDivisionError)).
  split; [reflexivity|]. split; [reflexivity|].
  exists 50. split; [reflexivity|discriminate].
Defined.

(** ** Shareable URLs *)

(** A URL of the [file:] scheme is never shareable, the empty URL is not
    either, and every URL of the [http:] or [https:] scheme is. *)
Theorem has_shareable_url_schemes (r : ItemRow) (rest : string) :
  (url r = Some ("file:" ++ rest) -> has_shareable_url r = Ok false)
  /\ (url r = Some "" -> has_shareable_url r = Ok false)
  /\ (url r = Some ("http:" ++ rest) -> has_shareable_url r = Ok true)
  /\ (url r = Some ("https:" ++ rest) -> has_shareable_url r = Ok true).
Proof.
  unfold has_shareable_url.
  repeat split; intros ->; cbn; try reflexivity.
  destruct rest; reflexivity.
Qed.

Lemma has_shareable_url_schemes_witness :
  has_shareable_url (with_url (Some "file:///home/u/Videos/talk.ogv")
                       null_row) = Ok false
  /\ has_shareable_url (watched_row None) = Ok true.
Proof.
  split.
  - exact (proj1 (has_shareable_url_schemes
                    (with_url (Some "file:///home/u/Videos/talk.ogv")
                       null_row)
                    "///home/u/Videos/talk.ogv") eq_refl).
  - exact (proj1 (proj2 (proj2 (has_shareable_url_schemes
                                  (watched_row None)
                                  "//example.org/talk.ogv"))) eq_refl).
Defined.

(** ** Fetching *)

(** [fetch_item_infos] returns exactly the stored rows whose id is among
    the identifiers asked for, and the result depends on the identifiers as
    a set only: neither their order nor repetitions matter. *)
Theorem fetch_item_infos_exact (w : World) (item_ids item_ids' : list Z) :
  (forall row,
      In row (fetch_item_infos w item_ids)
      <-> In row (db_rows w)
          /\ exists i, id row = Some i /\ In i item_ids)
  /\ ((forall i, In i item_ids <-> In i item_ids') ->
      fetch_item_infos w item_ids = fetch_item_infos w item_ids').
Proof.
  unfold fetch_item_infos, connection_execute. cbn [in_list]. split.
  - intros row. rewrite filter_In. split.
    + intros [Hin H]. split; [assumption|].
      destruct (id row) as [i|]; [|discriminate].
      apply existsb_exists in H. destruct H as [j [Hj Hij]].
      apply Z.eqb_eq in Hij. subst j. now exists i.
    + intros [Hin [i [Hid Hi]]]. split; [assumption|]. rewrite Hid.
      apply existsb_exists. exists i. split; [assumption|apply Z.eqb_refl].
  - intros Hsame. apply filter_ext. intros row.
    destruct (id row) as [i|]; [|reflexivity].
    destruct (existsb (Z.eqb i) item_ids) eqn:E.
    + symmetry. apply existsb_exists in E. destruct E as [j [Hj Hij]].
      apply existsb_exists. exists j. split; [now apply Hsame|assumption].
    + symmetry. destruct (existsb (Z.eqb i) item_ids') eqn:E';
        [|reflexivity].
      apply existsb_exists in E'. destruct E' as [j [Hj Hij]].
      assert (existsb (Z.eqb i) item_ids = true) as E2.
      { apply existsb_exists. exists j. split; [now apply Hsame|assumption]. }
      congruence.
Qed.

Lemma fetch_item_infos_exact_witness :
  fetch_item_infos example_world [2; 1]
  = fetch_item_infos example_world [1; 2; 2].
Proof.
  apply (proj2 (fetch_item_infos_exact example_world [2; 1] [1; 2; 2])).
  intros i. simpl. tauto.
Defined.

(** ** Pending automatic downloads *)

(** [x and y] and [x or y] on flag columns: the operand that decides is the
    value, so the result can be [None]. *)
Definition py_and (x y : option bool) : option bool :=
  if truthy x then y else x.

Definition py_or (x y : option bool) : option bool :=
  if truthy x then x else y.

Definition py_not (x : option bool) : option bool :=
  Some (negb (truthy x)).

Definition pending_auto_dl (r : ItemRow) : option bool :=
  py_and (py_and (py_and (feed_auto_downloadable r)
                         (py_not (was_downloaded r)))
                 (feed_auto_downloadable r))
         (py_or (feed_get_everything r) (eligible_for_autodownload r)).

(** An item of a feed that downloads everything, not downloaded before. *)
Definition with_was_downloaded (v : option bool) (r : ItemRow) : ItemRow :=
  ltac:(row_with was_downloaded v r).
Definition with_feed_auto_downloadable (v : option bool) (r : ItemRow)
    : ItemRow :=
  ltac:(row_with feed_auto_downloadable v r).
Definition with_feed_get_everything (v : option bool) (r : ItemRow)
    : ItemRow :=
  ltac:(row_with feed_get_everything v r).
Definition with_enclosure_format (v : option string) (r : ItemRow)
    : ItemRow :=
  ltac:(row_with enclosure_format v r).
Definition with_description (v : option string) (r : ItemRow) : ItemRow :=
  ltac:(row_with description v r).

Definition auto_download_row : ItemRow :=
  with_feed_auto_downloadable (Some true)
    (with_feed_get_everything (Some true)
       (with_was_downloaded (Some false) null_row)).

Example pending_auto_dl_example :
  pending_auto_dl auto_download_row = Some true
  /\ pending_auto_dl null_row = None.
Proof. split; reflexivity. Qed.

(** [pending_auto_dl] is true exactly for an item that was not downloaded
    before, in a feed that downloads automatically and either takes
    everything or has marked this item; testing the feed flag a second time
    changes nothing.  Without feed row the value is [None]. *)
Theorem pending_auto_dl_truth (r : ItemRow) :
  truthy (pending_auto_dl r)
  = truthy (feed_auto_downloadable r)
    && negb (truthy (was_downloaded r))
    && (truthy (feed_get_everything r)
        || truthy (eligible_for_autodownload r))
  /\ (feed_auto_downloadable r = None -> pending_auto_dl r = None).
Proof.
  unfold pending_auto_dl, py_and, py_or, py_not. split.
  - destruct (feed_auto_downloadable r) as [[|]|],
      (was_downloaded r) as [[|]|],
      (feed_get_everything r) as [[|]|],
      (eligible_for_autodownload r) as [[|]|]; reflexivity.
  - intros ->. reflexivity.
Qed.

Lemma pending_auto_dl_truth_witness :
  feed_auto_downloadable null_row = None /\ pending_auto_dl null_row = None.
Proof.
  split; [reflexivity|].
  exact (proj2 (pending_auto_dl_truth null_row) eq_refl).
Defined.

(** ** File format and description *)

(** The functions of [miro.filetypes] and [miro.util] that [ItemInfo]
    calls; they are defined outside this module.  [Links] is whatever the
    stripper reports besides the text. *)
Record Helpers (Links : Type) : Type := Build_Helpers {
  (** [filetypes.is_torrent_filename(url)] *)
  is_torrent_filename : option string -> bool;
  (** [filetypes.calc_file_format(filename, content_type)] *)
  calc_file_format : option PyStr -> option string -> string;
  (** [util.HTMLStripper().strip(text)] *)
  html_strip : option string -> string * Links
}.
Arguments is_torrent_filename {Links} _ _.
Arguments calc_file_format {Links} _ _ _.
Arguments html_strip {Links} _ _.

Definition looks_like_torrent {Links : Type} (h : Helpers Links)
    (r : ItemRow) : bool :=
  is_torrent r || is_torrent_filename h (url r).

Definition file_format {Links : Type} (h : Helpers Links) (w : World)
    (r : ItemRow) : string :=
  if looks_like_torrent h r then ".torrent"
  else
    match enclosure_format r with
    | Some f => f
    | None => calc_file_format h (filename w r) (downloader_content_type r)
    end.

(** [text.replace(old, new)] for one-character strings. *)
Fixpoint replace_char (old new : ascii) (text : string) : string :=
  match text with
  | EmptyString => EmptyString
  | String c rest =>
      String (if Ascii.eqb c old then new else c)
             (replace_char old new rest)
  end.

(** [description_stripped] computes the stripped description on first use
    and keeps it on the object; the value is the same every time. *)
Definition description_stripped {Links : Type} (h : Helpers Links)
    (r : ItemRow) : string * Links :=
  html_strip h (description r).

Definition description_oneline {Links : Type} (h : Helpers Links)
    (r : ItemRow) : string :=
  replace_char "010" "$" (fst (description_stripped h r)).

(** Helpers that know torrents by the end of the URL's text and strip
    nothing. *)
Definition example_helpers : Helpers unit := {|
  is_torrent_filename := fun u =>
    match u with
    | Some s =>
        match index 0 ".torrent" s with
        | Some n => (n + 8 =? String.length s)%nat
        | None => false
        end
    | None => false
    end;
  calc_file_format := fun _ _ => ".ogv";
  html_strip := fun t =>
    match t with
    | Some s => (s, tt)
    | None => ("", tt)
    end
|}.

Example description_oneline_example :
  description_oneline example_helpers
    (with_description (Some ("Talk" ++ String "010" "about things"))
                      null_row)
  = "Talk$about things".
Proof. reflexivity. Qed.

Example file_format_examples :
  file_format example_helpers example_world
              (with_url (Some "http://example.org/a.torrent") null_row)
  = ".torrent"
  /\ file_format example_helpers example_world (watched_row None) = ".ogv".
Proof. split; reflexivity. Qed.

(** A BitTorrent download is of format ".torrent" whatever its enclosure
    says, and an enclosure format, when there is one, is used unchanged for
    everything that does not look like a torrent: the format is then not
    worked out from the file. *)
Theorem file_format_precedence {Links : Type} (h : Helpers Links)
    (w : World) (r : ItemRow) :
  (is_torrent r = true -> file_format h w r = ".torrent")
  /\ (forall f, looks_like_torrent h r = false ->
                enclosure_format r = Some f -> file_format h w r = f).
Proof.
  unfold file_format, looks_like_torrent. split.
  - intros ->. reflexivity.
  - intros f -> ->. reflexivity.
Qed.

Lemma file_format_precedence_witness :
  let r := with_enclosure_format (Some ".mp4")
             (with_downloader_type (Some "BitTorrent") null_row) in
  is_torrent r = true
  /\ file_format example_helpers example_world r = ".torrent".
Proof.
  intros r. split; [reflexivity|].
  exact (proj1 (file_format_precedence example_helpers example_world r)
           eq_refl).
Defined.

Lemma replace_char_length (old new : ascii) (text : string) :
  String.length (replace_char old new text) = String.length text.
Proof.
  induction text as [|c rest IH]; simpl; [reflexivity|now rewrite IH].
Qed.

Lemma replace_char_get (old new : ascii) (text : string) (n : nat) :
  old <> new -> get n (replace_char old new text) <> Some old.
Proof.
  intros Hne. revert n.
  induction text as [|c rest IH]; intros n; simpl; [discriminate|].
  destruct n as [|n]; [|apply IH].
  destruct (Ascii.eqb_spec c old) as [-> | Hc]; intros H; inversion H;
    congruence.
Qed.

(** [description_oneline] is a single line: it has the length of the
    stripped description and no newline at any position. *)
Theorem description_oneline_one_line {Links : Type} (h : Helpers Links)
    (r : ItemRow) :
  String.length (description_oneline h r)
  = String.length (fst (description_stripped h r))
  /\ forall n, get n (description_oneline h r) <> Some "010"%char.
Proof.
  unfold description_oneline. split.
  - apply replace_char_length.
  - intros n. apply replace_char_get. discriminate.
Qed.

(** * miro.frontends.widgets.browser: which URLs the embedded browser loads *)

Definition PROTOCOLS_MIRO_HANDLES : list string :=
  ["http:"; "https:"; "ftp:"; "feed:"; "feeds:"; "mailto:"].

(** The loop of [_should_miro_handle]: the first protocol that starts the
    URL ends the search with [True]; running out of protocols gives
    [False]. *)
Fixpoint starts_with_one_of (url : string) (protocols : list string) : bool :=
  match protocols with
  | [] => false
  | mem :: rest =>
      if prefix mem url then true else starts_with_one_of url rest
  end.

Definition _should_miro_handle (url : string) : bool :=
  starts_with_one_of url PROTOCOLS_MIRO_HANDLES.

(** What [should_load_url] does besides answering: the log line, the
    message to the backend and the call handed to the UI thread. *)
Inductive Action : Type :=
| LoggingInfo (url : string)
| SubscriptionLinkClicked (url : string)
| HandleExternalUrl (url : string).

Section Browser.

(** The type of [guide_info.allowed_urls]; the browser only passes it on. *)
Variable Allowed : Type.

Record GuideInfo : Type := Build_GuideInfo {
  guide_url : string;
  allowed_urls : Allowed
}.

(** The functions of other modules that [should_load_url] asks. *)
Record BrowserEnv : Type := Build_BrowserEnv {
  (** [util.toUni(url)] *)
  toUni : string -> string;
  (** [subscription.is_subscribe_link(url)] *)
  is_subscribe_link : string -> bool;
  (** [guide.isPartOfGuide(url, guide_url, allowed_urls)] *)
  isPartOfGuide : string -> string -> Allowed -> bool;
  (** [filetypes.isFeedFilename(url)] *)
  isFeedFilename : string -> bool;
  (** [filetypes.isAllowedFilename(url)] *)
  isAllowedFilename : string -> bool
}.

(** [Browser.should_load_url]: the answer to the web view, and what was
    done on the way, in order. *)
Definition should_load_url (env : BrowserEnv) (guide_info : GuideInfo)
    (url : string) : bool * list Action :=
  let log := LoggingInfo url in
  let url := toUni env url in
  if is_subscribe_link env url then
    (false, [log; SubscriptionLinkClicked url])
  else if isPartOfGuide env url (guide_url guide_info)
                        (allowed_urls guide_info)
          && negb (isFeedFilename env url)
          && negb (isAllowedFilename env url) then
    (true, [log])
  else if negb (_should_miro_handle url) then
    (true, [log])
  else
    (false, [log; HandleExternalUrl url]).

Lemma starts_with_one_of_iff (url : string) (protocols : list string) :
  starts_with_one_of url protocols = true
  <-> exists mem, In mem protocols /\ prefix mem url = true.
Proof.
  induction protocols as [|mem rest IH]; simpl.
  - split; [discriminate|]. intros [m [[] _]].
  - destruct (prefix mem url) eqn:E.
    + split; [|reflexivity]. intros _. exists mem. auto.
    + rewrite IH. split.
      * intros [m [Hin Hp]]. exists m. auto.
      * intros [m [[<- | Hin] Hp]]; [congruence|]. exists m. auto.
Qed.

(** The browser loads a URL itself exactly when it passes nothing on: the
    answer is [True] with the log line only, or [False] with the log line
    followed by one action on the converted URL -- the subscription message
    or the call of the external handler. *)
Theorem should_load_url_dichotomy (env : BrowserEnv)
    (guide_info : GuideInfo) (url : string) :
  should_load_url env guide_info url = (true, [LoggingInfo url])
  \/ should_load_url env guide_info url
     = (false, [LoggingInfo url; SubscriptionLinkClicked (toUni env url)])
  \/ should_load_url env guide_info url
     = (false, [LoggingInfo url; HandleExternalUrl (toUni env url)]).
Proof.
  unfold should_load_url.
  destruct (is_subscribe_link env (toUni env url)); [right; left; reflexivity|].
  destruct (isPartOfGuide env (toUni env url) (guide_url guide_info)
              (allowed_urls guide_info)
            && negb (isFeedFilename env (toUni env url))
            && negb (isAllowedFilename env (toUni env url)));
    [left; reflexivity|].
  destruct (_should_miro_handle (toUni env url));
    [right; right; reflexivity|left; reflexivity].
Qed.

(** The external handler is only ever called with a URL that is not a
    subscribe link and starts with one of the protocols Miro handles:
    [javascript:] links and other schemes stay with the browser. *)
Theorem external_handler_protocols (env : BrowserEnv)
    (guide_info : GuideInfo) (url u : string) :
  In (HandleExternalUrl u) (snd (should_load_url env guide_info url)) ->
  u = toUni env url
  /\ is_subscribe_link env u = false
  /\ fst (should_load_url env guide_info url) = false
  /\ exists mem, In mem PROTOCOLS_MIRO_HANDLES /\ prefix mem u = true.
Proof.
  unfold should_load_url.
  destruct (is_subscribe_link env (toUni env url)) eqn:Esub.
  { simpl. intros [H | [H | []]]; discriminate. }
  destruct (isPartOfGuide env (toUni env url) (guide_url guide_info)
              (allowed_urls guide_info)
            && negb (isFeedFilename env (toUni env url))
            && negb (isAllowedFilename env (toUni env url))).
  { simpl. intros [H | []]; discriminate. }
  destruct (_should_miro_handle (toUni env url)) eqn:Eh; simpl.
  - intros [H | [H | []]]; [discriminate|]. injection H as <-.
    repeat split; try assumption.
    exact (proj1 (starts_with_one_of_iff (toUni env url)
                    PROTOCOLS_MIRO_HANDLES) Eh).
  - intros [H | []]; discriminate.
Qed.

(** A subscribe link is never loaded and never handed to the external
    handler, whatever the guide allows; and a URL that is neither a
    subscribe link nor of a protocol Miro handles is always loaded. *)
Theorem should_load_url_ends (env : BrowserEnv) (guide_info : GuideInfo)
    (url : string) :
  (is_subscribe_link env (toUni env url) = true ->
   should_load_url env guide_info url
   = (false, [LoggingInfo url; SubscriptionLinkClicked (toUni env url)]))
  /\ (is_subscribe_link env (toUni env url) = false ->
      (forall mem, In mem PROTOCOLS_MIRO_HANDLES ->
                   prefix mem (toUni env url) = false) ->
      should_load_url env guide_info url = (true, [LoggingInfo url])).
Proof.
  unfold should_load_url. split.
  - intros ->. reflexivity.
  - intros -> Hno.
    destruct (isPartOfGuide env (toUni env url) (guide_url guide_info)
                (allowed_urls guide_info)
              && negb (isFeedFilename env (toUni env url))
              && negb (isAllowedFilename env (toUni env url)));
      [reflexivity|].
    destruct (_should_miro_handle (toUni env url)) eqn:Eh; [|reflexivity].
    apply starts_with_one_of_iff in Eh. destruct Eh as [mem [Hin Hp]].
    rewrite (Hno mem Hin) in Hp. discriminate.
Qed.

End Browser.

Arguments guide_url {Allowed} _.
Arguments allowed_urls {Allowed} _.
Arguments toUni {Allowed} _ _.
Arguments is_subscribe_link {Allowed} _ _.
Arguments isPartOfGuide {Allowed} _ _ _ _.
Arguments isFeedFilename {Allowed} _ _.
Arguments isAllowedFilename {Allowed} _ _.
Arguments should_load_url {Allowed} _ _ _.

(** A guide at example.org, an environment that takes [.rss] URLs at
    subscribe.example.org for subscribe links and everything under the
    guide's URL for part of the guide. *)
Definition example_guide : GuideInfo (list string) :=
  Build_GuideInfo (list string) "https://example.org/guide/" [].

Definition example_browser_env : BrowserEnv (list string) := {|
  toUni := fun url => url;
  is_subscribe_link := prefix "http://subscribe.example.org/";
  isPartOfGuide := fun url guide_url _ => prefix guide_url url;
  isFeedFilename := fun _ => false;
  isAllowedFilename := fun _ => false
|}.

Example _should_miro_handle_examples :
  _should_miro_handle "https://example.org/" = true
  /\ _should_miro_handle "feeds://example.org/rss" = true
  /\ _should_miro_handle "javascript:void(0)" = false
  /\ _should_miro_handle "HTTP://example.org/" = false
  /\ _should_miro_handle "" = false.
Proof. repeat split; reflexivity. Qed.

Example should_load_url_examples :
  should_load_url example_browser_env example_guide
                  "https://example.org/guide/page"
  = (true, [LoggingInfo "https://example.org/guide/page"])
  /\ should_load_url example_browser_env example_guide
                     "http://elsewhere.example.com/video"
     = (false, [LoggingInfo "http://elsewhere.example.com/video";
                HandleExternalUrl "http://elsewhere.example.com/video"]).
Proof. split; reflexivity. Qed.

Lemma external_handler_protocols_witness :
  In (HandleExternalUrl "http://elsewhere.example.com/video")
     (snd (should_load_url example_browser_env example_guide
                           "http://elsewhere.example.com/video"))
  /\ exists mem, In mem PROTOCOLS_MIRO_HANDLES
                 /\ prefix mem "http://elsewhere.example.com/video" = true.
Proof.
  assert (H : In (HandleExternalUrl "http://elsewhere.example.com/video")
                 (snd (should_load_url example_browser_env example_guide
                         "http://elsewhere.example.com/video")))
    by (right; left; reflexivity).
  split; [exact H|].
  exact (proj2 (proj2 (proj2
           (external_handler_protocols (list string) example_browser_env
              example_guide "http://elsewhere.example.com/video"
              "http://elsewhere.example.com/video" H)))).
Defined.

Lemma should_load_url_ends_witness :
  should_load_url example_browser_env example_guide
                  "http://subscribe.example.org/feed.rss"
  = (false, [LoggingInfo "http://subscribe.example.org/feed.rss";
             SubscriptionLinkClicked
               "http://subscribe.example.org/feed.rss"])
  /\ should_load_url example_browser_env example_guide "javascript:void(0)"
     = (true, [LoggingInfo "javascript:void(0)"]).
Proof.
  split.
  - exact (proj1 (should_load_url_ends (list string) example_browser_env
                    example_guide "http://subscribe.example.org/feed.rss")
             eq_refl).
  - apply (proj2 (should_load_url_ends (list string) example_browser_env
                    example_guide "javascript:void(0)")); [reflexivity|].
    intros mem Hin. simpl in Hin.
    destruct Hin as [<- | [<- | [<- | [<- | [<- | [<- | []]]]]]]; reflexivity.
Defined.

(** * SelectColumn.sqlite_type: the schema map *)

(** The outcome of a dictionary lookup: the value, or [KeyError]. *)
Inductive Lookup (A : Type) : Type :=
| Found (a : A)
| KeyError.
Arguments Found {A} a.
Arguments KeyError {A}.

Section Schema.

(** The schema items of [miro.schema] and the type descriptions that
    [app.db.get_sqlite_type] makes of them. *)
Variables SchemaItem SqliteType : Type.

(** An entry of [schema.object_schemas], as far as the class body reads
    it. *)
Record ObjectSchema : Type := Build_ObjectSchema {
  table_name : string;
  fields : list (string * SchemaItem)
}.

Definition key_eqb (k k' : string * string) : bool :=
  (fst k =? fst k')%string && (snd k =? snd k')%string.

(** A dictionary with [(table, column)] keys, as the list of its items. *)
Definition SchemaMap : Type := list (string * string * SchemaItem).

(** [d[k] = v]: the value of an existing key is replaced, a new key is
    added. *)
Fixpoint dict_set (k : string * string) (v : SchemaItem) (d : SchemaMap)
    : SchemaMap :=
  match d with
  | [] => [(k, v)]
  | (k', v') :: d' =>
      if key_eqb k k' then (k, v) :: d' else (k', v') :: dict_set k v d'
  end.

Fixpoint dict_get (k : string * string) (d : SchemaMap)
    : option SchemaItem :=
  match d with
  | [] => None
  | (k', v') :: d' => if key_eqb k k' then Some v' else dict_get k d'
  end.

(** The two loops in the body of [SelectColumn] that fill [_schema_map]. *)
Definition _schema_map (object_schemas : list ObjectSchema) : SchemaMap :=
  fold_left
    (fun m object_schema =>
       fold_left
         (fun m' field =>
            dict_set (table_name object_schema, fst field) (snd field) m')
         (fields object_schema) m)
    object_schemas [].

Definition sqlite_type (object_schemas : list ObjectSchema)
    (get_sqlite_type : SchemaItem -> SqliteType) (c : SelectColumn)
    : Lookup SqliteType :=
  match dict_get (table c, column c) (_schema_map object_schemas) with
  | Some schema_item => Found (get_sqlite_type schema_item)
  | None => KeyError
  end.

(** Every assignment the two loops make, in order. *)
Definition assignments (object_schemas : list ObjectSchema)
    : list (string * string * SchemaItem) :=
  flat_map (fun os => map (fun field => (table_name os, fst field, snd field))
                          (fields os))
           object_schemas.

Definition assign (m : SchemaMap) (kv : string * string * SchemaItem)
    : SchemaMap :=
  dict_set (fst kv) (snd kv) m.

Lemma key_eqb_eq (k k' : string * string) : key_eqb k k' = true <-> k = k'.
Proof.
  destruct k as [a b], k' as [a' b']. unfold key_eqb. simpl.
  rewrite andb_true_iff, !String.eqb_eq. split.
  - intros [-> ->]. reflexivity.
  - intros H. inversion H. auto.
Qed.

Lemma key_eqb_refl (k : string * string) : key_eqb k k = true.
Proof. now apply key_eqb_eq. Qed.

Lemma dict_get_set_same k v d : dict_get k (dict_set k v d) = Some v.
Proof.
  induction d as [|[k' v'] d IH]; simpl.
  - now rewrite key_eqb_refl.
  - destruct (key_eqb k k') eqn:E; simpl.
    + now rewrite key_eqb_refl.
    + now rewrite E.
Qed.

Lemma dict_get_set_other k k' v d :
  k <> k' -> dict_get k (dict_set k' v d) = dict_get k d.
Proof.
  intros Hne.
  assert (Hf : key_eqb k k' = false).
  { destruct (key_eqb k k') eqn:E; [|reflexivity].
    apply key_eqb_eq in E. contradiction. }
  induction d as [|[k'' v''] d IH]; simpl.
  - now rewrite Hf.
  - destruct (key_eqb k' k'') eqn:E; simpl.
    + apply key_eqb_eq in E. subst k''. now rewrite Hf.
    + now rewrite IH.
Qed.

Lemma schema_map_assignments (object_schemas : list ObjectSchema) :
  _schema_map object_schemas
  = fold_left assign (assignments object_schemas) [].
Proof.
  unfold _schema_map, assignments.
  generalize (@nil (string * string * SchemaItem)).
  induction object_schemas as [|os rest IH]; intros m; simpl; [reflexivity|].
  rewrite fold_left_app, IH. f_equal.
  generalize m. clear. induction (fields os) as [|f fs IHf]; intros m; simpl;
    [reflexivity|]. apply IHf.
Qed.

(** After a run of assignments a key holds the value assigned to it last,
    or what it held before when the run does not assign it. *)
Lemma dict_get_fold k (l : list (string * string * SchemaItem))
    (m : SchemaMap) :
  (forall v, ~ In (k, v) l) /\ dict_get k (fold_left assign l m) = dict_get k m
  \/ exists l1 v l2,
       l = (l1 ++ (k, v) :: l2)%list /\ (forall v', ~ In (k, v') l2)
       /\ dict_get k (fold_left assign l m) = Some v.
Proof.
  revert m. induction l as [|[k' v'] l IH]; intros m.
  - left. split; [intros v []|reflexivity].
  - simpl.
    destruct (IH (assign m (k', v')))
      as [[Hno Hget] | (l1 & v & l2 & -> & Hno & Hget)].
    + destruct (key_eqb k k') eqn:E.
      * apply key_eqb_eq in E. subst k'. right.
        exists [], v', l. split; [reflexivity|]. split; [assumption|].
        rewrite Hget. unfold assign. simpl. apply dict_get_set_same.
      * left. split.
        -- intros v [H | H]; [|now apply (Hno v)].
           inversion H. subst. rewrite key_eqb_refl in E. discriminate.
        -- rewrite Hget. unfold assign. simpl.
           apply dict_get_set_other. intros ->.
           rewrite key_eqb_refl in E. discriminate.
    + right. exists ((k', v') :: l1), v, l2.
      split; [reflexivity|]. split; assumption.
Qed.

Lemma in_assignments (object_schemas : list ObjectSchema) t c item :
  In (t, c, item) (assignments object_schemas)
  <-> exists os, In os object_schemas /\ table_name os = t
                 /\ In (c, item) (fields os).
Proof.
  unfold assignments. rewrite in_flat_map. split.
  - intros [os [Hos Hin]]. apply in_map_iff in Hin.
    destruct Hin as [[c' i'] [Heq Hf]]. simpl in Heq. inversion Heq; subst.
    exists os. auto.
  - intros [os [Hos [<- Hf]]]. exists os. split; [assumption|].
    apply in_map_iff. exists (c, item). auto.
Qed.

(** [sqlite_type] fails with [KeyError] exactly for a column that no object
    schema of its table declares; otherwise it describes a schema item that
    some object schema declares for this table and column. *)
Theorem sqlite_type_lookup (object_schemas : list ObjectSchema)
    (get_sqlite_type : SchemaItem -> SqliteType) (c : SelectColumn) :
  (sqlite_type object_schemas get_sqlite_type c = KeyError
   <-> forall os item, In os object_schemas -> table_name os = table c ->
                       ~ In (column c, item) (fields os))
  /\ (forall ty, sqlite_type object_schemas get_sqlite_type c = Found ty ->
                 exists os item,
                   In os object_schemas /\ table_name os = table c
                   /\ In (column c, item) (fields os)
                   /\ ty = get_sqlite_type item).
Proof.
  unfold sqlite_type. rewrite schema_map_assignments.
  destruct (dict_get_fold (table c, column c) (assignments object_schemas) [])
    as [[Hno Hget] | (l1 & v & l2 & Heq & Hno & Hget)]; rewrite Hget.
  - simpl. split.
    + split; [|reflexivity]. intros _ os item Hos Ht Hin.
      apply (Hno item). apply in_assignments. exists os. auto.
    + intros ty H. discriminate.
  - assert (Hin : In (table c, column c, v) (assignments object_schemas)).
    { rewrite Heq. apply in_or_app. right. now left. }
    apply in_assignments in Hin. destruct Hin as [os [Hos [Ht Hf]]].
    split.
    + split; [discriminate|]. intros H. exfalso. exact (H os v Hos Ht Hf).
    + intros ty H. inversion H. subst. exists os, v. auto.
Qed.

End Schema.

Arguments table_name {SchemaItem} _.
Arguments fields {SchemaItem} _.
Arguments sqlite_type {SchemaItem SqliteType} _ _ _.
Arguments _schema_map {SchemaItem} _.

(** Two object schemas with storage classes for schema items; the second
    declares [item.id] again. *)
Definition example_schemas : list (ObjectSchema string) :=
  [ Build_ObjectSchema string "item"
      [("id", "SchemaInt"); ("title", "SchemaString")];
    Build_ObjectSchema string "feed" [("expire", "SchemaString")];
    Build_ObjectSchema string "item" [("id", "SchemaBigInt")] ].

Definition example_sqlite_type (schema_item : string) : string :=
  if (schema_item =? "SchemaString")%string then "text" else "integer".

Example sqlite_type_examples :
  sqlite_type example_schemas example_sqlite_type
              (SelectColumn_init "item" "title" None) = Found "text"
  /\ sqlite_type example_schemas example_sqlite_type
                 (SelectColumn_init "feed" "expire" (Some "feed_expire"))
     = Found "text"
  /\ sqlite_type example_schemas example_sqlite_type
                 (SelectColumn_init "feed" "title" None) = KeyError
  /\ _schema_map example_schemas
     = [("item", "id", "SchemaBigInt"); ("item", "title", "SchemaString");
        ("feed", "expire", "SchemaString")].
Proof. repeat split; reflexivity. Qed.

Lemma sqlite_type_lookup_witness :
  sqlite_type example_schemas example_sqlite_type
              (SelectColumn_init "feed" "title" None) = KeyError.
Proof.
  apply (proj1 (sqlite_type_lookup string string example_schemas
                  example_sqlite_type
                  (SelectColumn_init "feed" "title" None))).
  intros os item Hos Ht Hin. simpl in Hos.
  destruct Hos as [<- | [<- | [<- | []]]]; simpl in Ht, Hin;
    try discriminate Ht.
  destruct Hin as [H | []]. discriminate H.
Defined.

(** * Binary64: the two float expressions of [ItemInfo] in IEEE arithmetic

    [auto_rating] and [download_progress] compute with Python floats, which
    the definitions above carry by rationals.  This part evaluates the two
    float expressions in binary64, with the operations of the standard
    library's [SpecFloat] at precision 53 and maximal exponent 1024, and
    relates the outcome to the rational one. *)

From Stdlib Require Import Floats.SpecFloat.

Module Binary64.

(** The number of binary digits of a mantissa. *)
Definition digits (m : positive) : Z := Zpos (digits2_pos m).

Lemma digits_pos m : 0 < digits m.
Proof. unfold digits. lia. Qed.

Lemma digits_bounds m : 2 ^ (digits m - 1) <= Zpos m < 2 ^ digits m.
Proof.
  unfold digits. induction m as [p IH | p IH |]; cbn [digits2_pos].
  - rewrite Pos2Z.inj_succ.
    replace (Z.succ (Zpos (digits2_pos p)) - 1)
      with (Z.succ (Zpos (digits2_pos p) - 1)) by lia.
    rewrite !Z.pow_succ_r by lia. lia.
  - rewrite Pos2Z.inj_succ.
    replace (Z.succ (Zpos (digits2_pos p)) - 1)
      with (Z.succ (Zpos (digits2_pos p) - 1)) by lia.
    rewrite !Z.pow_succ_r by lia. lia.
  - cbn. lia.
Qed.

Lemma digits_unique m k : 2 ^ (k - 1) <= Zpos m < 2 ^ k -> digits m = k.
Proof.
  intros [Hlo Hhi]. pose proof (digits_bounds m) as [Dlo Dhi].
  pose proof (digits_pos m) as Dp.
  assert (Hk : 0 < k).
  { destruct (Z.ltb_spec 0 k); [assumption|].
    exfalso. assert (2 ^ k <= 1).
    { destruct (Z.eq_dec k 0) as [->|]; [cbn; lia|].
      rewrite Z.pow_neg_r by lia. lia. }
    lia. }
  destruct (Z.lt_trichotomy (digits m) k) as [H | [H | H]]; [|assumption|].
  - exfalso.
    assert (2 ^ digits m <= 2 ^ (k - 1)) by (apply Z.pow_le_mono_r; lia).
    lia.
  - exfalso.
    assert (2 ^ k <= 2 ^ (digits m - 1)) by (apply Z.pow_le_mono_r; lia).
    lia.
Qed.

Lemma iter_xO_Z (m d : positive) : Zpos (Pos.iter xO m d) = Zpos m * 2 ^ Zpos d.
Proof.
  change (Pos.iter xO m d) with (shift_pos d m).
  rewrite shift_pos_correct. rewrite Zpower_pos_is_exp || idtac.
  change (Zpower_pos 2 d) with (2 ^ Zpos d). lia.
Qed.

Lemma digits_shift (m : positive) (k : Z) :
  0 <= k -> digits (Z.to_pos (Zpos m * 2 ^ k)) = digits m + k.
Proof.
  intros Hk. apply digits_unique.
  assert (Hp : 0 < 2 ^ k) by (apply Z.pow_pos_nonneg; lia).
  rewrite Z2Pos.id by lia.
  pose proof (digits_bounds m) as [Dlo Dhi]. pose proof (digits_pos m).
  replace (digits m + k - 1) with ((digits m - 1) + k) by lia.
  rewrite !Z.pow_add_r by lia. split; nia.
Qed.

(** Shifting out zeros keeps the record exact. *)
Lemma iter_shr_exact (p m : positive) :
  iter_pos shr_1 p (Build_shr_record (Zpos (Pos.iter xO m p)) false false)
  = Build_shr_record (Zpos m) false false.
Proof.
  revert m. induction p as [p IH | p IH |]; intros m; cbn [iter_pos Pos.iter].
  - cbn [shr_1 orb]. rewrite IH. apply IH.
  - rewrite IH. apply IH.
  - reflexivity.
Qed.

Lemma digits_iter_xO (m k : positive) :
  digits (Pos.iter xO m k) = digits m + Zpos k.
Proof.
  apply digits_unique. rewrite iter_xO_Z.
  pose proof (digits_bounds m) as [Dlo Dhi]. pose proof (digits_pos m).
  assert (Hp : 0 < 2 ^ Zpos k) by (apply Z.pow_pos_nonneg; lia).
  replace (digits m + Zpos k - 1) with ((digits m - 1) + Zpos k) by lia.
  rewrite !Z.pow_add_r by lia. split; nia.
Qed.

Local Abbreviation bra := (binary_round_aux 53 1024).

(** The second half of [binary_round_aux]: the rounded mantissa is brought
    back to 53 digits and the exponent is checked. *)
Definition finish (s : bool) (m : Z) (e : Z) : spec_float :=
  let '(mrs, e') := shr_fexp 53 1024 m e loc_Exact in
  match shr_m mrs with
  | Z0 => S754_zero s
  | Zpos m' => if e' <=? 1024 - 53 then S754_finite s m' e'
               else S754_infinity s
  | Zneg _ => S754_nan
  end.

Lemma fexp_normal (d e : Z) :
  -1074 <= d + e - 53 -> fexp 53 1024 (d + e) = d + e - 53.
Proof. unfold fexp, emin. lia. Qed.

Lemma finish_canonical s (m : positive) e :
  digits m = 53 -> -1074 <= e <= 971 ->
  finish s (Zpos m) e = S754_finite s m e.
Proof.
  intros Hd He. unfold finish, shr_fexp. cbn [Zdigits2].
  change (Zpos (digits2_pos m)) with (digits m). rewrite Hd.
  rewrite fexp_normal by lia. replace (53 + e - 53 - e) with 0 by lia.
  cbn [shr shr_record_of_loc shr_m].
  destruct (Z.leb_spec e (1024 - 53)); [reflexivity|lia].
Qed.

Lemma finish_carry s e :
  -1074 <= e <= 970 ->
  finish s (2 ^ 53) e = S754_finite s (2 ^ 52)%positive (e + 1).
Proof.
  intros He. unfold finish, shr_fexp.
  change (Zdigits2 (2 ^ 53)) with 54.
  rewrite fexp_normal by lia. replace (54 + e - 53 - e) with 1 by lia.
  cbn [shr shr_record_of_loc iter_pos].
  change (shr_m (shr_1 {| shr_m := 2 ^ 53; shr_r := false; shr_s := false |}))
    with (Zpos (2 ^ 52)).
  cbv beta iota.
  destruct (Z.leb_spec (e + 1) (1024 - 53)); [reflexivity|lia].
Qed.

Lemma loc_of_shr_record_of_loc m l :
  loc_of_shr_record (shr_record_of_loc m l) = l.
Proof. destruct l as [|[| |]]; reflexivity. Qed.

Lemma shr_m_of_loc m l : shr_m (shr_record_of_loc m l) = m.
Proof. destruct l as [|[| |]]; reflexivity. Qed.

(** A mantissa of 53 digits is rounded in place. *)
Lemma bra_53 s (m : positive) e l :
  digits m = 53 -> -1074 <= e ->
  bra s (Zpos m) e l = finish s (round_nearest_even (Zpos m) l) e.
Proof.
  intros Hd He. unfold binary_round_aux, finish.
  unfold shr_fexp at 1. cbn [Zdigits2].
  change (Zpos (digits2_pos m)) with (digits m). rewrite Hd.
  rewrite fexp_normal by lia. replace (53 + e - 53 - e) with 0 by lia.
  cbn [shr]. rewrite loc_of_shr_record_of_loc, shr_m_of_loc. reflexivity.
Qed.

Lemma bra_canonical s (m : positive) e :
  digits m = 53 -> -1074 <= e <= 971 ->
  bra s (Zpos m) e loc_Exact = S754_finite s m e.
Proof.
  intros Hd He. rewrite bra_53 by lia. cbn [round_nearest_even].
  now apply finish_canonical.
Qed.

(** Zeros shifted out on the right leave an exact result. *)
Lemma bra_shift_exact s (m k : positive) e :
  digits m = 53 -> -1074 <= e + Zpos k <= 971 ->
  bra s (Zpos (Pos.iter xO m k)) e loc_Exact
  = S754_finite s m (e + Zpos k).
Proof.
  intros Hd He. unfold binary_round_aux.
  unfold shr_fexp at 1. cbn [Zdigits2].
  change (Zpos (digits2_pos (Pos.iter xO m k)))
    with (digits (Pos.iter xO m k)).
  rewrite digits_iter_xO, Hd.
  rewrite fexp_normal by lia.
  replace (53 + Zpos k + e - 53 - e) with (Zpos k) by lia.
  cbn [shr shr_record_of_loc]. rewrite iter_shr_exact.
  cbn [shr_m loc_of_shr_record round_nearest_even].
  change (let '(mrs'', e'') :=
            shr_fexp 53 1024 (Zpos m) (e + Zpos k) loc_Exact in
          match shr_m mrs'' with
          | 0 => S754_zero s
          | Zpos m0 => if e'' <=? 1024 - 53 then S754_finite s m0 e''
                       else S754_infinity s
          | Zneg _ => S754_nan
          end) with (finish s (Zpos m) (e + Zpos k)).
  now apply finish_canonical.
Qed.

(** The mantissa of 53 digits that carries [n]. *)
Definition mant (n : positive) : positive :=
  Z.to_pos (Zpos n * 2 ^ (53 - digits n)).

(** The binary64 number [n * 2^e] of sign [s], for [n] of at most 53
    digits. *)
Definition nf (s : bool) (n : positive) (e : Z) : spec_float :=
  S754_finite s (mant n) (e + digits n - 53).

Lemma mant_Z n : digits n <= 53 -> Zpos (mant n) = Zpos n * 2 ^ (53 - digits n).
Proof.
  intros H. unfold mant. rewrite Z2Pos.id; [reflexivity|].
  assert (0 < 2 ^ (53 - digits n)) by (apply Z.pow_pos_nonneg; lia). lia.
Qed.

Lemma digits_mant n : digits n <= 53 -> digits (mant n) = 53.
Proof.
  intros H. unfold mant. rewrite digits_shift by lia. lia.
Qed.

Lemma binary_round_nf s (n0 : positive) (j e : Z) :
  digits n0 <= 53 -> 0 <= j ->
  -1074 <= e + j + digits n0 - 53 <= 971 ->
  binary_round 53 1024 s (Z.to_pos (Zpos n0 * 2 ^ j)) e = nf s n0 (e + j).
Proof.
  intros Hd Hj He.
  assert (Hpj : 0 < 2 ^ j) by (apply Z.pow_pos_nonneg; lia).
  set (n := Z.to_pos (Zpos n0 * 2 ^ j)).
  assert (Hn : Zpos n = Zpos n0 * 2 ^ j) by (unfold n; rewrite Z2Pos.id; lia).
  assert (Hdn : digits n = digits n0 + j) by (unfold n; now apply digits_shift).
  pose proof (digits_mant n0 Hd) as Hdm.
  pose proof (mant_Z n0 Hd) as Hm.
  pose proof (digits_pos n0) as Hd0.
  unfold binary_round.
  change (Zpos (digits2_pos n)) with (digits n). rewrite Hdn.
  rewrite fexp_normal by lia. unfold shl_align.
  replace (digits n0 + j + e - 53 - e) with (digits n0 + j - 53) by lia.
  unfold nf.
  destruct (digits n0 + j - 53) as [|k|k] eqn:Hk.
  - assert (n = mant n0) as ->.
    { apply Pos2Z.inj. rewrite Hn, Hm. f_equal. f_equal. lia. }
    rewrite bra_canonical by lia. f_equal. lia.
  - assert (n = Pos.iter xO (mant n0) k) as ->.
    { apply Pos2Z.inj. rewrite iter_xO_Z, Hn, Hm.
      rewrite <- Z.mul_assoc, <- Z.pow_add_r by lia. f_equal. f_equal. lia. }
    rewrite bra_shift_exact by lia. f_equal. lia.
  - assert (Pos.iter xO n k = mant n0) as ->.
    { apply Pos2Z.inj. rewrite iter_xO_Z, Hn, Hm.
      rewrite <- Z.mul_assoc, <- Z.pow_add_r by lia. f_equal. f_equal. lia. }
    rewrite bra_canonical by lia. f_equal. lia.
Qed.

Definition b64_of_Z (z : Z) : spec_float := binary_normalize 53 1024 z 0 false.

Lemma b64_of_Z_pos (n : positive) :
  digits n <= 53 -> b64_of_Z (Zpos n) = nf false n 0.
Proof.
  intros Hd. unfold b64_of_Z, binary_normalize.
  pose proof (digits_pos n).
  pose proof (binary_round_nf false n 0 0 Hd) as H0.
  rewrite Z.pow_0_r, Z.mul_1_r, Pos2Z.id in H0. apply H0; lia.
Qed.

Lemma SFmul_nf s1 s2 (a b : positive) ea eb :
  digits (a * b) <= 53 ->
  -1074 <= ea + eb + digits (a * b) - 53 <= 971 ->
  SFmul 53 1024 (nf s1 a ea) (nf s2 b eb) = nf (xorb s1 s2) (a * b) (ea + eb).
Proof.
  intros Hd He. unfold nf at 1 2. cbn [SFmul].
  pose proof (digits_bounds a) as [Alo Ahi].
  pose proof (digits_bounds b) as [Blo Bhi].
  pose proof (digits_bounds (a * b)) as [Clo Chi].
  pose proof (digits_pos a). pose proof (digits_pos b).
  pose proof (digits_pos (a * b)).
  (* the digits of a product *)
  assert (Hsum : digits a + digits b - 1 <= digits (a * b)).
  { destruct (Z.leb_spec (digits a + digits b - 1) (digits (a * b)));
      [assumption|exfalso].
    assert (2 ^ digits (a * b) <= 2 ^ (digits a - 1 + (digits b - 1)))
      by (apply Z.pow_le_mono_r; lia).
    rewrite Z.pow_add_r in * by lia. rewrite Pos2Z.inj_mul in Chi. nia. }
  assert (Hsum2 : digits (a * b) <= digits a + digits b).
  { destruct (Z.leb_spec (digits (a * b)) (digits a + digits b));
      [assumption|exfalso].
    assert (2 ^ (digits a + digits b) <= 2 ^ (digits (a * b) - 1))
      by (apply Z.pow_le_mono_r; lia).
    rewrite Z.pow_add_r in * by lia. rewrite Pos2Z.inj_mul in Clo. nia. }
  assert (Hda : digits a <= 53) by lia.
  assert (Hdb : digits b <= 53) by lia.
  set (k := 53 + digits (a * b) - digits a - digits b).
  assert (Hprod : (mant a * mant b)%positive
                  = Z.to_pos (Zpos (mant (a * b)) * 2 ^ k)).
  { apply Pos2Z.inj. rewrite Pos2Z.inj_mul.
    assert (0 < 2 ^ k) by (apply Z.pow_pos_nonneg; lia).
    rewrite Z2Pos.id by lia.
    rewrite !mant_Z by assumption. rewrite Pos2Z.inj_mul.
    assert (E : 2 ^ (53 - digits (a * b)) * 2 ^ k
                = 2 ^ (53 - digits a) * 2 ^ (53 - digits b)).
    { rewrite <- !Z.pow_add_r by lia. f_equal. lia. }
    rewrite <- (Z.mul_assoc _ (2 ^ (53 - digits (a * b))) (2 ^ k)), E.
    ring. }
  rewrite Hprod.
  pose proof (digits_mant (a * b) Hd) as Hdm.
  destruct k as [|k'|k'] eqn:Hk; [| |lia].
  - rewrite Z.pow_0_r, Z.mul_1_r, Pos2Z.id.
    rewrite bra_canonical by lia. unfold nf. f_equal. lia.
  - assert (Z.to_pos (Zpos (mant (a * b)) * 2 ^ Zpos k')
            = Pos.iter xO (mant (a * b)) k') as ->.
    { apply Pos2Z.inj. rewrite iter_xO_Z.
      assert (0 < 2 ^ Zpos k') by (apply Z.pow_pos_nonneg; lia).
      rewrite Z2Pos.id by lia. reflexivity. }
    rewrite bra_shift_exact by lia. unfold nf. f_equal. lia.
Qed.

Lemma shl_align_fst (m : positive) (e e' : Z) :
  e' <= e -> Zpos (fst (shl_align m e e')) = Zpos m * 2 ^ (e - e').
Proof.
  intros H. unfold shl_align.
  destruct (e' - e) as [|d|d] eqn:Hd; cbn [fst]; [|lia|].
  - replace (e - e') with 0 by lia. lia.
  - rewrite iter_xO_Z. f_equal. f_equal. lia.
Qed.

(** The difference of two positive numbers, when it fits 53 digits, is
    exact. *)
Lemma SFsub_nf (a b : positive) (ea eb : Z) :
  digits a <= 53 -> digits b <= 53 ->
  let e0 := Z.min ea eb in
  let K := Zpos a * 2 ^ (ea - e0) - Zpos b * 2 ^ (eb - e0) in
  Z.abs K < 2 ^ 53 -> -1021 <= e0 -> Z.max ea eb <= 918 ->
  SFsub 53 1024 (nf false a ea) (nf false b eb)
  = match K with
    | 0 => S754_zero false
    | Zpos k => nf false k e0
    | Zneg k => nf true k e0
    end.
Proof.
  intros Hda Hdb e0 K HK Hlo Hhi.
  pose proof (digits_pos a). pose proof (digits_pos b).
  unfold nf at 1 2. cbn [SFsub cond_Zopp].
  set (xa := ea + digits a - 53). set (xb := eb + digits b - 53).
  set (ez := Z.min xa xb).
  assert (Hza : ez <= xa) by (unfold ez; lia).
  assert (Hzb : ez <= xb) by (unfold ez; lia).
  assert (Hz0 : ez <= e0) by (unfold ez, e0, xa, xb; lia).
  rewrite !shl_align_fst by assumption.
  rewrite !mant_Z by assumption.
  assert (HD : Zpos a * 2 ^ (53 - digits a) * 2 ^ (xa - ez)
               - Zpos b * 2 ^ (53 - digits b) * 2 ^ (xb - ez)
               = K * 2 ^ (e0 - ez)).
  { unfold K. rewrite Z.mul_sub_distr_r.
    rewrite <- !Z.mul_assoc, <- !Z.pow_add_r by (unfold e0, xa, xb in *; lia).
    f_equal; f_equal; f_equal; unfold xa, xb; lia. }
  rewrite HD.
  assert (Hp : 0 < 2 ^ (e0 - ez)) by (apply Z.pow_pos_nonneg; lia).
  assert (Hdk : forall k, Zpos k < 2 ^ 53 -> digits k <= 53).
  { intros k Hk. pose proof (digits_bounds k) as [Klo _].
    destruct (Z.leb_spec (digits k) 53); [assumption|exfalso].
    assert (2 ^ 53 <= 2 ^ (digits k - 1)) by (apply Z.pow_le_mono_r; lia).
    lia. }
  destruct K as [|k|k] eqn:EK.
  - reflexivity.
  - assert (Hk : digits k <= 53) by (apply Hdk; lia).
    pose proof (digits_pos k).
    unfold binary_normalize.
    assert (Zpos k * 2 ^ (e0 - ez) = Zpos (Z.to_pos (Zpos k * 2 ^ (e0 - ez))))
      as -> by (rewrite Z2Pos.id; lia).
    rewrite binary_round_nf; [f_equal; lia|assumption|lia|].
    unfold e0 in *. lia.
  - assert (Hk : digits k <= 53) by (apply Hdk; lia).
    pose proof (digits_pos k).
    unfold binary_normalize.
    assert (Zneg k * 2 ^ (e0 - ez) = Zneg (Z.to_pos (Zpos k * 2 ^ (e0 - ez))))
      as ->.
    { rewrite <- !Pos2Z.opp_pos, Z2Pos.id by nia. ring. }
    rewrite binary_round_nf; [f_equal; lia|assumption|lia|].
    unfold e0 in *. lia.
Qed.

Lemma digits_le (k : positive) (n : Z) : Zpos k < 2 ^ n -> digits k <= n.
Proof.
  intros Hk. pose proof (digits_bounds k) as [Klo _].
  pose proof (digits_pos k).
  destruct (Z.leb_spec (digits k) n); [assumption|exfalso].
  destruct (Z.ltb_spec n 0).
  - rewrite Z.pow_neg_r in Hk by lia. lia.
  - assert (2 ^ n <= 2 ^ (digits k - 1)) by (apply Z.pow_le_mono_r; lia).
    lia.
Qed.

(** The integer part of a finite number, toward zero. *)
Definition b64_trunc (x : spec_float) : option Z :=
  match x with
  | S754_zero _ => Some 0
  | S754_finite s m e =>
      let a := if 0 <=? e then Zpos m * 2 ^ e else Zpos m / 2 ^ (- e) in
      Some (if s then - a else a)
  | S754_infinity _ => None
  | S754_nan => None
  end.

Lemma b64_trunc_nf_half s (k : positive) :
  digits k <= 53 ->
  b64_trunc (nf s k (-1)) = Some (if s then - (Zpos k / 2) else Zpos k / 2).
Proof.
  intros Hk. pose proof (digits_pos k). unfold nf. cbn [b64_trunc].
  destruct (Z.leb_spec 0 (-1 + digits k - 53)); [lia|].
  rewrite mant_Z by assumption.
  replace (- (-1 + digits k - 53)) with (1 + (53 - digits k)) by lia.
  rewrite Z.pow_add_r by lia. change (2 ^ 1) with 2.
  assert (0 < 2 ^ (53 - digits k)) by (apply Z.pow_pos_nonneg; lia).
  rewrite Z.div_mul_cancel_r by lia. reflexivity.
Qed.

Definition b64_1_5 : spec_float := S754_finite false 6755399441055744 (-52).

Lemma b64_1_5_nf : b64_1_5 = nf false 3 (-1).
Proof. reflexivity. Qed.

(** [p - 1.5 * s] in binary64, for counts below 2^51: no rounding occurs, and
    the integer part is that of [(2p - 3s) / 2]. *)
Lemma skip_expression_exact (p s : Z) :
  0 < p < 2 ^ 51 -> 0 < s < 2 ^ 51 ->
  b64_trunc (SFsub 53 1024 (b64_of_Z p)
               (SFmul 53 1024 b64_1_5 (b64_of_Z s)))
  = Some (Z.quot (2 * p - 3 * s) 2).
Proof.
  intros Hp Hs.
  destruct p as [|p|p]; [lia| |lia]. destruct s as [|s|s]; [lia| |lia].
  assert (Hdp : digits p <= 51) by (apply digits_le; lia).
  assert (Hds : digits s <= 51) by (apply digits_le; lia).
  assert (Hd3 : digits (3 * s) <= 53).
  { apply digits_le. rewrite Pos2Z.inj_mul.
    change (2 ^ 53) with (4 * 2 ^ 51). lia. }
  pose proof (digits_pos (3 * s)).
  rewrite !b64_of_Z_pos by lia. rewrite b64_1_5_nf.
  rewrite SFmul_nf by lia. cbn [xorb]. change (-1 + 0) with (-1).
  rewrite SFsub_nf; try lia.
  - change (Z.min 0 (-1)) with (-1). change (0 - -1) with 1.
    change (-1 - -1) with 0. rewrite Z.pow_0_r, Z.pow_1_r.
    rewrite Pos2Z.inj_mul.
    replace (Zpos p * 2 - 3 * Zpos s * 1) with (2 * Zpos p - 3 * Zpos s)
      by lia.
    destruct (2 * Zpos p - 3 * Zpos s) as [|k|k] eqn:EK.
    + reflexivity.
    + rewrite b64_trunc_nf_half by (apply digits_le; lia).
      f_equal. symmetry. apply Z.quot_div_nonneg; lia.
    + rewrite b64_trunc_nf_half by (apply digits_le; lia).
      f_equal. rewrite <- Pos2Z.opp_pos, Z.quot_opp_l by lia.
      f_equal. symmetry. apply Z.quot_div_nonneg; lia.
  - change (Z.min 0 (-1)) with (-1). change (0 - -1) with 1.
    change (-1 - -1) with 0. rewrite Z.pow_0_r, Z.pow_1_r.
    rewrite Pos2Z.inj_mul. change (2 ^ 53) with (4 * 2 ^ 51). lia.
Qed.

Lemma shr_1_m (m : positive) r s :
  shr_m (shr_1 (Build_shr_record (Zpos m) r s)) = Zpos m / 2.
Proof.
  destruct m as [p|p|]; cbn [shr_1 shr_m].
  - rewrite Pos2Z.inj_xI. apply Z.div_unique with 1; lia.
  - rewrite Pos2Z.inj_xO. apply Z.div_unique with 0; lia.
  - reflexivity.
Qed.

(** A mantissa of 54 digits loses one bit before it is rounded. *)
Lemma bra_54 s (m : positive) e l :
  digits m = 54 -> -1074 <= e ->
  exists l',
    bra s (Zpos m) e l
    = finish s (round_nearest_even (Zpos m / 2) l') (e + 1).
Proof.
  intros Hd He.
  exists (loc_of_shr_record (shr_1 (shr_record_of_loc (Zpos m) l))).
  unfold binary_round_aux, finish.
  unfold shr_fexp at 1. cbn [Zdigits2].
  change (Zpos (digits2_pos m)) with (digits m). rewrite Hd.
  rewrite fexp_normal by lia. replace (54 + e - 53 - e) with 1 by lia.
  cbn [shr iter_pos].
  replace (shr_m (shr_1 (shr_record_of_loc (Zpos m) l))) with (Zpos m / 2).
  - reflexivity.
  - destruct l as [|[| |]]; cbn [shr_record_of_loc]; now rewrite shr_1_m.
Qed.

Lemma round_nearest_even_bounds m l :
  m <= round_nearest_even m l <= m + 1.
Proof.
  destruct l as [|[| |]]; cbn [round_nearest_even]; try lia.
  destruct (Z.even m); lia.
Qed.

(** What [finish] makes of a mantissa between 2^52 and 2^53 at an exponent
    of -53 or less: a number that is at most 1. *)
Lemma finish_at_most_one (m1 e1 : Z) :
  2 ^ 52 <= m1 <= 2 ^ 53 -> -1074 <= e1 <= -53 ->
  exists m e, finish false m1 e1 = S754_finite false m e
              /\ e <= -52 /\ Zpos m <= 2 ^ (- e).
Proof.
  intros Hm He.
  destruct (Z.eq_dec m1 (2 ^ 53)) as [-> | Hne].
  - exists (2 ^ 52)%positive, (e1 + 1). rewrite finish_carry by lia.
    split; [reflexivity|]. split; [lia|].
    change (Zpos (2 ^ 52)) with (2 ^ 52). apply Z.pow_le_mono_r; lia.
  - destruct m1 as [|p|p]; [lia| |lia].
    assert (Hd : digits p = 53) by (apply digits_unique; lia).
    exists p, e1. rewrite finish_canonical by lia.
    split; [reflexivity|]. split; [lia|].
    assert (2 ^ 53 <= 2 ^ (- e1)) by (apply Z.pow_le_mono_r; lia). lia.
Qed.

Lemma new_location_0 n : new_location n 0 = loc_Exact.
Proof.
  unfold new_location, new_location_even, new_location_odd.
  now destruct (Z.even n).
Qed.

(** The quotient of two positive numbers, the smaller on top, is a number
    between 0 and 1. *)
Lemma SFdiv_at_most_one (mx my : positive) (ex ey : Z) :
  digits mx = 53 -> digits my = 53 ->
  ex < ey \/ (ex = ey /\ Zpos mx <= Zpos my) ->
  -1021 <= ex - ey ->
  exists m e,
    SFdiv 53 1024 (S754_finite false mx ex) (S754_finite false my ey)
    = S754_finite false m e
    /\ e <= -52 /\ Zpos m <= 2 ^ (- e).
Proof.
  intros Hdx Hdy Hle Hrange.
  pose proof (digits_bounds mx) as Hmd. rewrite Hdx in Hmd.
  pose proof (digits_bounds my) as Hmt. rewrite Hdy in Hmt.
  change (53 - 1) with 52 in *.
  cbn [SFdiv xorb]. unfold SFdiv_core_binary. cbn [Zdigits2].
  change (Zpos (digits2_pos mx)) with (digits mx).
  change (Zpos (digits2_pos my)) with (digits my).
  rewrite Hdx, Hdy.
  replace (53 + ex - (53 + ey)) with (0 + (ex - ey)) by lia.
  rewrite fexp_normal by lia.
  replace (Z.min (0 + (ex - ey) - 53) (ex - ey)) with (ex - ey - 53) by lia.
  replace (ex - ey - (ex - ey - 53)) with 53 by lia.
  rewrite Z.shiftl_mul_pow2 by lia.
  pose proof (Z_div_mod (Zpos mx * 2 ^ 53) (Zpos my) ltac:(reflexivity))
    as Hdiv.
  destruct (Z.div_eucl (Zpos mx * 2 ^ 53) (Zpos my)) as [q r] eqn:Eqr.
  destruct Hdiv as [Heq Hr].
  assert (Hq : 2 ^ 52 <= q < 2 ^ 54).
  { change (2 ^ 54) with (2 * 2 ^ 53). change (2 ^ 53) with (2 * 2 ^ 52) in *.
    split; nia. }
  destruct q as [|q|q]; [lia| |lia].
  set (e' := ex - ey - 53).
  assert (He' : -1074 <= e' <= -53) by (unfold e'; lia).
  destruct (Z.ltb_spec (Zpos q) (2 ^ 53)) as [Hlt | Hge].
  - (* 53 digits: rounded in place *)
    assert (Hdq : digits q = 53) by (apply digits_unique; lia).
    rewrite bra_53 by lia.
    apply finish_at_most_one; [|lia].
    pose proof (round_nearest_even_bounds (Zpos q)
                  (new_location (Zpos my) r)).
    lia.
  - assert (Hdq : digits q = 54) by (apply digits_unique; lia).
    destruct (Z.eq_dec ex ey) as [Heqe | Hnee].
    + (* same exponent: the quotient is exactly 1 *)
      assert (Hmm : Zpos mx <= Zpos my) by lia.
      assert (Hq53 : Zpos q = 2 ^ 53) by nia.
      assert (Hr0 : r = 0) by nia.
      assert (He52 : e' = -53) by (unfold e'; lia).
      subst r. rewrite Hq53, He52, new_location_0.
      exists (2 ^ 52)%positive, (-52).
      split; [reflexivity|]. split; [lia|reflexivity].
    + destruct (bra_54 false q e' (new_location (Zpos my) r) Hdq
                  ltac:(lia)) as [l' ->].
      apply finish_at_most_one; [|unfold e' in *; lia].
      pose proof (round_nearest_even_bounds (Zpos q / 2) l').
      assert (2 ^ 52 <= Zpos q / 2 < 2 ^ 53).
      { split.
        - apply Z.div_le_lower_bound; lia.
        - apply Z.div_lt_upper_bound; lia. }
      lia.
Qed.

(** *** Inexact rounding *)

Lemma shr_1_m_nonneg (x : shr_record) :
  0 <= shr_m x -> shr_m (shr_1 x) = shr_m x / 2.
Proof.
  destruct x as [m r s]. cbn [shr_m]. intros Hm.
  destruct m as [|p|p]; [reflexivity|apply shr_1_m|lia].
Qed.

Lemma pow2_xO (k : positive) : 2 ^ Zpos k~0 = 2 ^ Zpos k * 2 ^ Zpos k.
Proof.
  rewrite <- Z.pow_add_r by lia. f_equal. lia.
Qed.

Lemma pow2_xI (k : positive) : 2 ^ Zpos k~1 = 2 * (2 ^ Zpos k * 2 ^ Zpos k).
Proof.
  rewrite <- Z.pow_add_r, <- Z.pow_succ_r by lia. f_equal. lia.
Qed.

Lemma iter_shr_m (k : positive) (x : shr_record) :
  0 <= shr_m x -> shr_m (iter_pos shr_1 k x) = shr_m x / 2 ^ Zpos k.
Proof.
  revert x. induction k as [k IH | k IH |]; intros x Hx; cbn [iter_pos].
  - assert (H1 : 0 <= shr_m (shr_1 x)).
    { rewrite shr_1_m_nonneg by assumption. apply Z.div_pos; lia. }
    assert (Hp : 0 < 2 ^ Zpos k) by (apply Z.pow_pos_nonneg; lia).
    assert (H2 : 0 <= shr_m (iter_pos shr_1 k (shr_1 x))).
    { rewrite IH by assumption. apply Z.div_pos; lia. }
    rewrite IH, IH, shr_1_m_nonneg by assumption.
    rewrite !Z.div_div by lia. now rewrite pow2_xI.
  - assert (Hp : 0 < 2 ^ Zpos k) by (apply Z.pow_pos_nonneg; lia).
    assert (H2 : 0 <= shr_m (iter_pos shr_1 k x)).
    { rewrite IH by assumption. apply Z.div_pos; lia. }
    rewrite IH, IH by assumption.
    rewrite Z.div_div by lia. now rewrite pow2_xO.
  - rewrite shr_1_m_nonneg by assumption. reflexivity.
Qed.

(** A mantissa of [53 + k] digits loses [k] bits before it is rounded. *)
Lemma bra_shift s (M k : positive) e l :
  digits M = 53 + Zpos k -> -1074 <= e ->
  bra s (Zpos M) e l
  = let R := iter_pos shr_1 k (shr_record_of_loc (Zpos M) l) in
    finish s (round_nearest_even (shr_m R) (loc_of_shr_record R))
           (e + Zpos k).
Proof.
  intros Hd He. unfold binary_round_aux, finish.
  unfold shr_fexp at 1. cbn [Zdigits2].
  change (Zpos (digits2_pos M)) with (digits M). rewrite Hd.
  rewrite fexp_normal by lia.
  replace (53 + Zpos k + e - 53 - e) with (Zpos k) by lia.
  reflexivity.
Qed.

Lemma shifted_mantissa_bounds (M k : positive) l :
  digits M = 53 + Zpos k ->
  2 ^ 52 <= shr_m (iter_pos shr_1 k (shr_record_of_loc (Zpos M) l)) < 2 ^ 53.
Proof.
  intros Hd. rewrite iter_shr_m by (rewrite shr_m_of_loc; lia).
  rewrite shr_m_of_loc.
  pose proof (digits_bounds M) as [Lo Hi]. rewrite Hd in Lo, Hi.
  assert (Hp : 0 < 2 ^ Zpos k) by (apply Z.pow_pos_nonneg; lia).
  replace (53 + Zpos k - 1) with (52 + Zpos k) in Lo by lia.
  rewrite Z.pow_add_r in Lo, Hi by lia.
  split.
  - apply Z.div_le_lower_bound; lia.
  - apply Z.div_lt_upper_bound; lia.
Qed.

(** What [finish] makes of a mantissa between 2^52 and 2^53. *)
Lemma finish_cases s (m1 e1 : Z) :
  2 ^ 52 <= m1 <= 2 ^ 53 -> -1074 <= e1 <= 970 ->
  (m1 < 2 ^ 53 /\ finish s m1 e1 = S754_finite s (Z.to_pos m1) e1)
  \/ (m1 = 2 ^ 53
      /\ finish s m1 e1 = S754_finite s (2 ^ 52)%positive (e1 + 1)).
Proof.
  intros Hm He.
  destruct (Z.eq_dec m1 (2 ^ 53)) as [-> | Hne].
  - right. split; [reflexivity|]. apply finish_carry. lia.
  - left. split; [lia|].
    destruct m1 as [|p|p]; [lia| |lia].
    rewrite Pos2Z.id. apply finish_canonical; [|lia].
    apply digits_unique. lia.
Qed.

(** Rounding a mantissa of at least 53 digits gives a finite number with a
    mantissa of 53 digits. *)
Lemma bra_finite s (M : positive) e l :
  53 <= digits M -> -1074 <= e -> e + digits M - 53 <= 970 ->
  exists m e',
    bra s (Zpos M) e l = S754_finite s m e' /\ digits m = 53
    /\ e + digits M - 53 <= e' <= e + digits M - 52.
Proof.
  intros Hd He Hhi.
  assert (Hfin : forall m1 e1,
             2 ^ 52 <= m1 <= 2 ^ 53 -> -1074 <= e1 <= 970 ->
             exists m e', finish s m1 e1 = S754_finite s m e'
                          /\ digits m = 53 /\ e1 <= e' <= e1 + 1).
  { intros m1 e1 Hm1 He1.
    destruct (finish_cases s m1 e1 Hm1 He1) as [[Hlt ->] | [-> ->]].
    - exists (Z.to_pos m1), e1. split; [reflexivity|]. split; [|lia].
      apply digits_unique. rewrite Z2Pos.id by lia. lia.
    - exists (2 ^ 52)%positive, (e1 + 1). split; [reflexivity|].
      split; [reflexivity|lia]. }
  destruct (digits M - 53) as [|k|k] eqn:Hk; [| |lia].
  - assert (Hd53 : digits M = 53) by lia.
    rewrite bra_53 by lia.
    pose proof (round_nearest_even_bounds (Zpos M) l).
    pose proof (digits_bounds M) as HM. rewrite Hd53 in HM.
    destruct (Hfin (round_nearest_even (Zpos M) l) e)
      as (m & e' & H1 & H2 & H3);
      [lia|lia|].
    exists m, e'. split; [assumption|]. split; [assumption|lia].
  - assert (HdM : digits M = 53 + Zpos k) by lia.
    rewrite (bra_shift s M k e l HdM He). cbv zeta.
    pose proof (shifted_mantissa_bounds M k l HdM) as HR.
    set (R := iter_pos shr_1 k (shr_record_of_loc (Zpos M) l)) in *.
    pose proof (round_nearest_even_bounds (shr_m R) (loc_of_shr_record R)).
    destruct (Hfin (round_nearest_even (shr_m R) (loc_of_shr_record R))
                (e + Zpos k)) as (m & e' & H1 & H2 & H3); [lia|lia|].
    exists m, e'. split; [assumption|]. split; [assumption|lia].
Qed.

(** *** Order *)

(** Where a shifted mantissa lies: the bits kept, then the bit shifted out
    last, then whether anything was shifted out before it. *)
Definition key (x : shr_record) : Z :=
  4 * shr_m x + (if shr_r x then 2 else 0) + (if shr_s x then 1 else 0).

Lemma shr_1_nonneg (x : shr_record) : 0 <= shr_m x -> 0 <= shr_m (shr_1 x).
Proof.
  intros H. rewrite shr_1_m_nonneg by assumption. apply Z.div_pos; lia.
Qed.

Lemma shr_1_key (x : shr_record) :
  0 <= shr_m x ->
  key (shr_1 x) = 2 * shr_m x + (if shr_r x || shr_s x then 1 else 0).
Proof.
  destruct x as [m r s]. cbn [shr_m]. intros Hm. unfold key.
  destruct m as [|[p|p|]|p]; [| | | |lia];
    destruct r, s; cbn [shr_1 shr_m shr_r shr_s orb]; lia.
Qed.

Lemma shr_1_mono (x y : shr_record) :
  0 <= shr_m x -> 0 <= shr_m y -> key x <= key y ->
  key (shr_1 x) <= key (shr_1 y).
Proof.
  intros Hx Hy H. rewrite !shr_1_key by assumption. unfold key in H.
  destruct (shr_r x), (shr_s x), (shr_r y), (shr_s y); cbn [orb]; lia.
Qed.

Lemma iter_shr_nonneg (k : positive) (x : shr_record) :
  0 <= shr_m x -> 0 <= shr_m (iter_pos shr_1 k x).
Proof.
  intros H. rewrite iter_shr_m by assumption.
  apply Z.div_pos; [assumption|]. apply Z.pow_pos_nonneg; lia.
Qed.

Lemma iter_shr_mono (k : positive) (x y : shr_record) :
  0 <= shr_m x -> 0 <= shr_m y -> key x <= key y ->
  key (iter_pos shr_1 k x) <= key (iter_pos shr_1 k y).
Proof.
  revert x y. induction k as [k IH | k IH |]; intros x y Hx Hy H;
    cbn [iter_pos].
  - apply IH; try (apply iter_shr_nonneg; now apply shr_1_nonneg).
    apply IH; try now apply shr_1_nonneg.
    now apply shr_1_mono.
  - apply IH; try now apply iter_shr_nonneg.
    now apply IH.
  - now apply shr_1_mono.
Qed.

Lemma round_mono (x y : shr_record) :
  key x <= key y ->
  round_nearest_even (shr_m x) (loc_of_shr_record x)
  <= round_nearest_even (shr_m y) (loc_of_shr_record y).
Proof.
  intros H.
  pose proof (round_nearest_even_bounds (shr_m x) (loc_of_shr_record x)).
  pose proof (round_nearest_even_bounds (shr_m y) (loc_of_shr_record y)).
  destruct (Z.lt_trichotomy (shr_m x) (shr_m y)) as [Hlt | [Heq | Hgt]].
  - lia.
  - destruct x as [mx rx sx], y as [my ry sy]. unfold key in H.
    cbn [shr_m shr_r shr_s] in *. subst my.
    destruct rx, sx, ry, sy; cbn [loc_of_shr_record round_nearest_even] in *;
      try lia; destruct (Z.even mx); lia.
  - exfalso. unfold key in H.
    destruct (shr_r x), (shr_s x), (shr_r y), (shr_s y); lia.
Qed.

(** *** Conversion of integers *)

Lemma b64_of_Z_big (n k : positive) :
  digits n = 53 + Zpos k ->
  b64_of_Z (Zpos n)
  = let R := iter_pos shr_1 k (Build_shr_record (Zpos n) false false) in
    finish false (round_nearest_even (shr_m R) (loc_of_shr_record R))
           (Zpos k).
Proof.
  intros Hd. unfold b64_of_Z, binary_normalize, binary_round.
  change (Zpos (digits2_pos n)) with (digits n). rewrite Hd.
  replace (53 + Zpos k + 0) with ((53 + Zpos k) + 0) by lia.
  rewrite fexp_normal by lia. unfold shl_align.
  replace (53 + Zpos k + 0 - 53 - 0) with (Zpos k) by lia.
  rewrite (bra_shift false n k 0 loc_Exact Hd) by lia.
  reflexivity.
Qed.

Lemma digits_mono (a b : positive) : Zpos a <= Zpos b -> digits a <= digits b.
Proof.
  intros H. apply digits_le.
  pose proof (digits_bounds b) as [_ Hb]. lia.
Qed.

(** Conversion keeps the order of positive integers: of two converted
    numbers, the one from the smaller integer has the smaller exponent, or
    the same exponent and a mantissa that is not larger. *)
Lemma b64_of_Z_order (d t : positive) :
  Zpos d <= Zpos t -> digits t <= 1000 ->
  exists mx ex my ey,
    b64_of_Z (Zpos d) = S754_finite false mx ex
    /\ b64_of_Z (Zpos t) = S754_finite false my ey
    /\ digits mx = 53 /\ digits my = 53
    /\ (ex < ey \/ (ex = ey /\ Zpos mx <= Zpos my))
    /\ -52 <= ex /\ ey <= 948.
Proof.
  intros Hdt Ht.
  pose proof (digits_mono d t Hdt) as Hdd.
  pose proof (digits_pos d) as Hpd. pose proof (digits_pos t) as Hpt.
  destruct (Z.leb_spec (digits t) 53) as [Hfit | Hbig].
  - (* both fit 53 digits *)
    rewrite !b64_of_Z_pos by lia. unfold nf.
    exists (mant d), (0 + digits d - 53), (mant t), (0 + digits t - 53).
    repeat split; try (apply digits_mant; lia); try lia.
    all: destruct (Z.eq_dec (digits d) (digits t)) as [E | N];
      [right|left; lia].
    all: split; [lia|]; rewrite !mant_Z by lia; rewrite E.
    all: apply Z.mul_le_mono_nonneg_r; [apply Z.pow_nonneg; lia|assumption].
  - set (kt := Z.to_pos (digits t - 53)).
    assert (Hbt : digits t = 53 + Zpos kt) by (unfold kt; lia).
    clearbody kt.
    rewrite (b64_of_Z_big t kt Hbt). cbv zeta.
    pose proof (shifted_mantissa_bounds t kt loc_Exact Hbt) as HRt.
    cbn [shr_record_of_loc] in HRt.
    set (Rt := iter_pos shr_1 kt (Build_shr_record (Zpos t) false false)) in *.
    pose proof (round_nearest_even_bounds (shr_m Rt) (loc_of_shr_record Rt))
      as HrT.
    set (m1t := round_nearest_even (shr_m Rt) (loc_of_shr_record Rt)) in *.
    destruct (Z.leb_spec (digits d) 53) as [Hfitd | Hbigd].
    + rewrite b64_of_Z_pos by lia. unfold nf.
      destruct (finish_cases false m1t (Zpos kt)) as [[Hlt ->] | [He ->]];
        [lia|lia| |].
      * exists (mant d), (0 + digits d - 53), (Z.to_pos m1t), (Zpos kt).
        repeat split; try (apply digits_mant; lia); try lia.
        apply digits_unique. rewrite Z2Pos.id by lia. lia.
      * exists (mant d), (0 + digits d - 53), (2 ^ 52)%positive, (Zpos kt + 1).
        repeat split; try (apply digits_mant; lia); try lia.
    + set (kd := Z.to_pos (digits d - 53)).
      assert (Hbd : digits d = 53 + Zpos kd) by (unfold kd; lia).
      clearbody kd.
      rewrite (b64_of_Z_big d kd Hbd). cbv zeta.
      pose proof (shifted_mantissa_bounds d kd loc_Exact Hbd) as HRd.
      cbn [shr_record_of_loc] in HRd.
      set (Rd := iter_pos shr_1 kd (Build_shr_record (Zpos d) false false))
        in *.
      pose proof (round_nearest_even_bounds (shr_m Rd) (loc_of_shr_record Rd))
        as HrD.
      set (m1d := round_nearest_even (shr_m Rd) (loc_of_shr_record Rd)) in *.
      assert (Hmono : Zpos kd = Zpos kt -> m1d <= m1t).
      { intros E. assert (kd = kt) as Ek by lia. unfold m1d, m1t, Rd, Rt.
        rewrite Ek. apply round_mono. apply iter_shr_mono; cbn [shr_m]; try lia.
        unfold key. cbn [shr_m shr_r shr_s]. lia. }
      destruct (finish_cases false m1t (Zpos kt)) as [[Hlt ->] | [He ->]];
        [lia|lia| |];
        (destruct (finish_cases false m1d (Zpos kd)) as [[Hld ->] | [Hed ->]];
         [lia|lia| |]).
      * exists (Z.to_pos m1d), (Zpos kd), (Z.to_pos m1t), (Zpos kt).
        repeat split; try lia;
          try (apply digits_unique; rewrite Z2Pos.id by lia; lia).
        all: destruct (Z.eq_dec (Zpos kd) (Zpos kt)) as [E | N];
          [right|left; lia].
        all: split; [assumption|]; rewrite !Z2Pos.id by lia; now apply Hmono.
      * exists (2 ^ 52)%positive, (Zpos kd + 1), (Z.to_pos m1t), (Zpos kt).
        repeat split; try lia;
          try (apply digits_unique; rewrite Z2Pos.id by lia; lia).
        all: destruct (Z.eq_dec (Zpos kd + 1) (Zpos kt)) as [E | N];
          [right; split; [assumption|]; rewrite Z2Pos.id by lia;
           change (Zpos (2 ^ 52)) with (2 ^ 52); lia|].
        all: destruct (Z.eq_dec (Zpos kd) (Zpos kt)) as [E' | N'];
          [exfalso; specialize (Hmono E'); lia|left; lia].
      * exists (Z.to_pos m1d), (Zpos kd), (2 ^ 52)%positive, (Zpos kt + 1).
        repeat split; try lia;
          try (apply digits_unique; rewrite Z2Pos.id by lia; lia).
      * exists (2 ^ 52)%positive, (Zpos kd + 1), (2 ^ 52)%positive,
          (Zpos kt + 1).
        repeat split; try lia.
        all: destruct (Z.eq_dec (Zpos kd) (Zpos kt)) as [E | N];
          [right|left; lia].
        all: split; lia.
Qed.

(** *** The unit interval *)

(** The float 1.0. *)
Definition one : spec_float := S754_finite false 4503599627370496 (-52).

Definition in_unit_interval (x : spec_float) : bool :=
  SFleb (S754_zero false) x && SFleb x one.

Lemma in_unit_interval_finite (m : positive) (e : Z) :
  e <= -52 -> Zpos m <= 2 ^ (- e) ->
  in_unit_interval (S754_finite false m e) = true.
Proof.
  intros He Hm. unfold in_unit_interval, SFleb, one. cbn [SFcompare andb].
  destruct (Z.compare_spec e (-52)) as [E | L | G]; [|reflexivity|lia].
  subst e. change (2 ^ (- -52)) with 4503599627370496 in Hm.
  rewrite Pos.compare_cont_spec. unfold Pos.switch_Eq.
  destruct (Pos.compare_spec m 4503599627370496); try reflexivity. lia.
Qed.

Lemma b64_div_unit_interval (d t : Z) :
  0 < d <= t -> t < 2 ^ 1000 ->
  in_unit_interval (SFdiv 53 1024 (b64_of_Z d) (b64_of_Z t)) = true.
Proof.
  intros Hd Ht.
  destruct d as [|d|d]; [lia| |lia]. destruct t as [|t|t]; [lia| |lia].
  assert (Hdt : digits t <= 1000) by (apply digits_le; exact Ht).
  clear Ht.
  destruct (b64_of_Z_order d t) as
    (mx & ex & my & ey & -> & -> & Hdx & Hdy & Hle & Hex & Hey);
    [lia|exact Hdt|].
  destruct (SFdiv_at_most_one mx my ex ey Hdx Hdy Hle ltac:(lia))
    as (m & e & -> & He & Hm).
  now apply in_unit_interval_finite.
Qed.

(** [self.play_count - SKIP_FACTOR * self.skip_count], then [int]: both
    counts are converted to binary64, the product and the difference are
    rounded to nearest, ties to even, and the result is cut toward zero. *)
Definition skip_expression (p s : Z) : option Z :=
  b64_trunc (SFsub 53 1024 (b64_of_Z p)
               (SFmul 53 1024 b64_1_5 (b64_of_Z s))).

(** [float(self.downloaded_size) / self.downloader_size] *)
Definition progress_quotient (d t : Z) : spec_float :=
  SFdiv 53 1024 (b64_of_Z d) (b64_of_Z t).

Example skip_expression_examples :
  skip_expression 4 2 = Some 1 /\ skip_expression 4 5 = Some (-3)
  /\ skip_expression 9 2 = Some 6.
Proof. repeat split; reflexivity. Qed.

(** Beyond 2^53 the conversion rounds, and the integer part is no longer
    that of the exact difference: here the exact value is 3. *)
Example skip_expression_rounds :
  skip_expression (2 ^ 53 + 1) (2 * ((2 ^ 53 - 2) / 3)) = Some 2
  /\ Z.quot (2 * (2 ^ 53 + 1) - 3 * (2 * ((2 ^ 53 - 2) / 3))) 2 = 3.
Proof. split; reflexivity. Qed.

Example progress_quotient_examples :
  progress_quotient 50 200 = S754_finite false 4503599627370496 (-54)
  /\ progress_quotient 7 7 = one
  /\ in_unit_interval (progress_quotient 1 3) = true.
Proof. repeat split; reflexivity. Qed.

Lemma digits_ge (k : positive) (n : Z) : 2 ^ (n - 1) <= Zpos k -> n <= digits k.
Proof.
  intros Hk. pose proof (digits_bounds k) as [_ Khi].
  pose proof (digits_pos k).
  destruct (Z.leb_spec n (digits k)); [assumption|exfalso].
  assert (2 ^ digits k <= 2 ^ (n - 1)) by (apply Z.pow_le_mono_r; lia).
  lia.
Qed.

Lemma binary_round_finite s (n : positive) e :
  -1021 <= e -> e + digits n <= 1023 ->
  exists m e', binary_round 53 1024 s n e = S754_finite s m e'.
Proof.
  intros Hlo Hhi. pose proof (digits_pos n) as Hd.
  unfold binary_round.
  change (Zpos (digits2_pos n)) with (digits n).
  rewrite fexp_normal by lia. unfold shl_align.
  replace (digits n + e - 53 - e) with (digits n - 53) by lia.
  destruct (digits n - 53) as [|k|k] eqn:Hk.
  - destruct (bra_finite s n e loc_Exact) as (m & e' & H & _); [lia|lia|lia|].
    eauto.
  - destruct (bra_finite s n e loc_Exact) as (m & e' & H & _); [lia|lia|lia|].
    eauto.
  - rewrite bra_canonical; [eauto| |lia].
    rewrite digits_iter_xO. lia.
Qed.

Lemma b64_of_Z_finite (n : positive) :
  digits n <= 1000 ->
  exists m e, b64_of_Z (Zpos n) = S754_finite false m e
              /\ digits m = 53 /\ -52 <= e <= 948.
Proof.
  intros Hd.
  destruct (b64_of_Z_order n n (Z.le_refl _) Hd)
    as (mx & ex & my & ey & H1 & H2 & Hdx & Hdy & _ & Hex & Hey).
  rewrite H1 in H2. inversion H2; subst.
  exists my, ey. repeat split; assumption.
Qed.

(** For counts in the range of an SQLite integer the float expression
    stays finite: [int] is never handed an infinity or a NaN, on which it
    would raise. *)
Theorem skip_expression_defined (p s : Z) :
  0 < p < 2 ^ 63 -> 0 < s < 2 ^ 63 ->
  exists n, skip_expression p s = Some n.
Proof.
  intros Hp Hs. unfold skip_expression.
  destruct p as [|p|p]; [lia| |lia]. destruct s as [|s|s]; [lia| |lia].
  destruct (b64_of_Z_finite p) as (mp & ep & -> & Hdp & Hep);
    [apply digits_le; lia|].
  destruct (b64_of_Z_finite s) as (ms & es & -> & Hds & Hes);
    [apply digits_le; lia|].
  unfold b64_1_5. cbn [SFmul xorb].
  pose proof (digits_bounds ms) as Hms. rewrite Hds in Hms.
  pose proof (digits_bounds mp) as Hmp. rewrite Hdp in Hmp.
  change (53 - 1) with 52 in *.
  set (M := (6755399441055744 * ms)%positive).
  assert (HM : 2 ^ 104 <= Zpos M < 2 ^ 106).
  { unfold M. rewrite Pos2Z.inj_mul.
    change (2 ^ 104) with (2 ^ 52 * 2 ^ 52).
    change (2 ^ 106) with (2 ^ 53 * 2 ^ 53).
    change (2 ^ 53) with (2 * 2 ^ 52) in *.
    change (Zpos 6755399441055744) with (3 * 2 ^ 51).
    change (2 ^ 52) with (2 * 2 ^ 51) in *. nia. }
  assert (HdM : 105 <= digits M <= 106).
  { split; [apply digits_ge; apply HM|apply digits_le; apply HM]. }
  destruct (bra_finite false M (-52 + es) loc_Exact)
    as (mq & eq & -> & Hdq & Heq); [lia|lia|lia|].
  pose proof (digits_bounds mq) as Hmq. rewrite Hdq in Hmq.
  change (53 - 1) with 52 in *.
  cbn [SFsub cond_Zopp].
  set (ez := Z.min ep eq).
  rewrite !shl_align_fst by (unfold ez; lia).
  set (D := Zpos mp * 2 ^ (ep - ez) - Zpos mq * 2 ^ (eq - ez)).
  assert (HD : Z.abs D < 2 ^ (53 + (Z.max ep eq - ez))).
  { assert (0 < 2 ^ (ep - ez)) by (apply Z.pow_pos_nonneg; unfold ez; lia).
    assert (0 < 2 ^ (eq - ez)) by (apply Z.pow_pos_nonneg; unfold ez; lia).
    assert (2 ^ (ep - ez) <= 2 ^ (Z.max ep eq - ez))
      by (apply Z.pow_le_mono_r; lia).
    assert (2 ^ (eq - ez) <= 2 ^ (Z.max ep eq - ez))
      by (apply Z.pow_le_mono_r; lia).
    rewrite Z.pow_add_r by (unfold ez; lia).
    unfold D. nia. }
  destruct D as [|d|d] eqn:ED.
  - exists 0. reflexivity.
  - unfold binary_normalize.
    destruct (binary_round_finite false d ez) as (m & e' & ->).
    + unfold ez. lia.
    + assert (digits d <= 53 + (Z.max ep eq - ez)) by (apply digits_le; lia).
      unfold ez in *. lia.
    + cbn [b64_trunc]. eauto.
  - unfold binary_normalize.
    destruct (binary_round_finite true d ez) as (m & e' & ->).
    + unfold ez. lia.
    + assert (digits d <= 53 + (Z.max ep eq - ez)) by (apply digits_le; lia).
      unfold ez in *. lia.
    + cbn [b64_trunc]. eauto.
Qed.

Lemma skip_expression_defined_witness :
  exists n, skip_expression (2 ^ 63 - 1) (2 ^ 63 - 1) = Some n.
Proof.
  apply (skip_expression_defined (2 ^ 63 - 1) (2 ^ 63 - 1));
    split; reflexivity.
Defined.

(** For counts below 2^51 binary64 makes no rounding error in
    [play_count - 1.5 * skip_count]: the rating that [auto_rating] gives is
    the one the float expression yields, clamped to 1..5. *)
Theorem auto_rating_binary64 (r : ItemRow) (p s : Z) :
  play_count r = Some p -> skip_count r = Some s ->
  0 < p < 2 ^ 51 -> 0 < s < 2 ^ 51 ->
  exists n, skip_expression p s = Some n
            /\ auto_rating r = Ok (Some (Z.min 5 (Z.max 1 n))).
Proof.
  intros Hp Hs Hp0 Hs0. exists (Z.quot (2 * p - 3 * s) 2). split.
  - now apply skip_expression_exact.
  - rewrite auto_rating_cases, Hp, Hs.
    destruct (Z.ltb_spec 0 p); [|lia]. destruct (Z.ltb_spec 0 s); [|lia].
    reflexivity.
Qed.

Lemma auto_rating_binary64_witness :
  exists n, skip_expression 8 3 = Some n
            /\ auto_rating (counted_row 8 3)
               = Ok (Some (Z.min 5 (Z.max 1 n))).
Proof.
  apply (auto_rating_binary64 (counted_row 8 3) 8 3);
    first [reflexivity | split; reflexivity].
Defined.

(** In binary64 the progress of a download is a number in [0.0, 1.0]
    whenever 0 < downloaded <= total: rounding the two sizes and their
    quotient never carries it past 1.0. *)
Theorem progress_quotient_in_unit_interval (d t : Z) :
  0 < d <= t -> t < 2 ^ 1000 ->
  in_unit_interval (progress_quotient d t) = true.
Proof.
  intros Hd Ht. now apply b64_div_unit_interval.
Qed.

Lemma progress_quotient_in_unit_interval_witness :
  in_unit_interval (progress_quotient (2 ^ 62 - 1) (2 ^ 62)) = true.
Proof.
  apply (progress_quotient_in_unit_interval (2 ^ 62 - 1) (2 ^ 62)).
  - split; [reflexivity|discriminate].
  - reflexivity.
Defined.

End Binary64.
